(** * Teensy 4.1 data logger: a shallow embedding of [teensy41-datalogger.ino]

    The sketch samples a trigger line, a 24-bit I2C counter, two digital and
    three analog inputs every 400 microseconds while the trigger is high,
    formats each sample as a text line into a PSRAM arena and, when the
    trigger is low, copies the arena to a freshly numbered file on the SD
    card.

    The embedding keeps the sketch's globals in a record, the devices it
    talks to (SD card, serial console) in the same record, and writes
    [StoreDataSDCard] and [loop] in a small state monad whose second outcome
    is the [while (1)] of the missing-card branch. *)

From Stdlib Require Import ZArith List Ascii String Lia.
From stdpp Require Import base tactics option list gmap strings.

Open Scope Z_scope.

(** ** Constants of the sketch *)

Definition SAMPLE_PERIOD_USEC : Z := 400.
Definition START_SIG : Z := 0.
Definition FLYWHEEL_DIR_CHANNEL : Z := 1.
Definition STARTER_PWR_K15_CHANNEL : Z := 3.
Definition STARTER_CURRENT_CHANNEL : Z := 0.
Definition FUEL_HTR_CURRENT_CHANNEL : Z := 1.
Definition STARTER_STRAIN_CURRENT_CHANNEL : Z := 2.
Definition EXTERNAL_MEM_SIZE : Z := 1024 * 1024 * 8.

(** ** Machine integers

    On the Teensy 4.1 [unsigned long] and [unsigned int] are 32 bits wide and
    [int] is a 32-bit two's complement integer. *)

Definition ULONG_MOD : Z := 2 ^ 32.
Definition INT_MAX : Z := 2 ^ 31 - 1.

(** Conversion to [unsigned long]: reduction modulo [2^32]. *)
Definition to_ulong (z : Z) : Z := z mod ULONG_MOD.

(** ** Characters and C strings *)

Definition cstring := list ascii.

Definition cstr (s : string) : cstring := list_ascii_of_string s.

Definition NUL : ascii := ascii_of_nat 0.
Definition LF : ascii := ascii_of_nat 10.
Definition CR : ascii := ascii_of_nat 13.

(** ** [printf] conversions

    Every conversion of the sketch prints a non-negative integer in decimal
    with a minimum number of digits: [%.10lu], [%.8lu], [%.4u], [%u] (one
    digit at least) and [%04d] (which, for the non-negative sequence numbers
    it is used on, is the same as [%.4d]). *)

Definition digit_char (d : Z) : ascii := ascii_of_nat (48 + Z.to_nat d).

(** The [k] low decimal digits of [v], most significant first. *)
Fixpoint fixed_digits (k : nat) (v : Z) : cstring :=
  match k with
  | O => []
  | S k' => fixed_digits k' (v / 10) ++ [digit_char (v mod 10)]
  end.

(** Number of decimal digits of [v]; the fuel covers every 32-bit value. *)
Fixpoint ndigits_go (fuel : nat) (v : Z) : nat :=
  match fuel with
  | O => 1%nat
  | S fuel' => if v <? 10 then 1%nat else S (ndigits_go fuel' (v / 10))
  end.

Definition ndigits (v : Z) : nat := ndigits_go 9 v.

(** [%.<prec>u]: at least [prec] digits, padded with zeros on the left. *)
Definition fmt_dec (prec : nat) (v : Z) : cstring :=
  fixed_digits (Nat.max prec (ndigits v)) v.

(** The format of line 226:
    ["%.10lu,%.8lu,%u,%u,%.4u,%.4u,%.4u\n"]. *)
Definition format_sample
    (time_usec fly_wheel_count fly_wheel_dir starter_pwr_k15
     starter_current fuel_htr_current starter_strain : Z) : cstring :=
  fmt_dec 10 time_usec ++ cstr "," ++
  fmt_dec 8 fly_wheel_count ++ cstr "," ++
  fmt_dec 1 fly_wheel_dir ++ cstr "," ++
  fmt_dec 1 starter_pwr_k15 ++ cstr "," ++
  fmt_dec 4 starter_current ++ cstr "," ++
  fmt_dec 4 fuel_htr_current ++ cstr "," ++
  fmt_dec 4 starter_strain ++ [LF].

(** The format of lines 161 and 164, ["LOG_%04d.txt"], written with
    [snprintf] into [char filename[16]]: at most 15 characters are kept. *)
Definition log_name (n : Z) : cstring :=
  take 15 (cstr "LOG_" ++ fmt_dec 4 n ++ cstr ".txt").

(** ** State

    The globals of the sketch (lines 72 to 79) and the two devices it
    writes to.  [psram] is addressed by offset from the start of the array;
    the array itself is [EXTERNAL_MEM_SIZE] bytes long, so an offset outside
    [0, EXTERNAL_MEM_SIZE) is outside the array.  The SD card is a finite map
    from file names to contents; the serial console is the list of texts
    printed so far, one entry per [print] call. *)

Record state := mkState {
  last_time_usec : Z;
  char_count : Z;
  psram : Z → ascii;
  memptr : Z;
  record_daq_data : bool;
  sd_files : gmap (list ascii) (list ascii);
  serial : list (list ascii);
}.

Definition set_last_time_usec (v : Z) (st : state) : state :=
  mkState v (char_count st) (psram st) (memptr st) (record_daq_data st)
          (sd_files st) (serial st).
Definition set_char_count (v : Z) (st : state) : state :=
  mkState (last_time_usec st) v (psram st) (memptr st) (record_daq_data st)
          (sd_files st) (serial st).
Definition set_psram (v : Z → ascii) (st : state) : state :=
  mkState (last_time_usec st) (char_count st) v (memptr st)
          (record_daq_data st) (sd_files st) (serial st).
Definition set_memptr (v : Z) (st : state) : state :=
  mkState (last_time_usec st) (char_count st) (psram st) v
          (record_daq_data st) (sd_files st) (serial st).
Definition set_record_daq_data (v : bool) (st : state) : state :=
  mkState (last_time_usec st) (char_count st) (psram st) (memptr st) v
          (sd_files st) (serial st).
Definition set_sd_files (v : gmap (list ascii) (list ascii)) (st : state) : state :=
  mkState (last_time_usec st) (char_count st) (psram st) (memptr st)
          (record_daq_data st) v (serial st).
Definition set_serial (v : list (list ascii)) (st : state) : state :=
  mkState (last_time_usec st) (char_count st) (psram st) (memptr st)
          (record_daq_data st) (sd_files st) v.

(** What the hardware presents during one pass of [loop]: the microsecond
    counter, the levels of the digital pins, the converted analog channels,
    the bytes the counter chip delivers to [Wire.requestFrom], and whether
    [SD.begin] succeeds.  A pin may change during a pass: [pin e ch k] is
    the level that the read number [k] (from 0) of channel [ch] finds in
    this pass, so the two reads of [START_SIG] on lines 191 and 196 need
    not agree. *)
Record inputs := mkInputs {
  clock : Z;
  pin : Z → nat → bool;
  adc : Z → Z;
  wire_reply : list Z;
  sd_begin : bool;
}.

(** ** The monad

    A computation reads the inputs of the current pass and threads the
    state.  It either returns ([Done]), enters the endless loop of line 154
    ([Hung]), or leaves the behaviour C defines ([Undef]: signed overflow of
    the sequence number). *)

Inductive outcome (A : Type) : Type :=
  | Done (a : A) (st : state)
  | Hung (st : state)
  | Undef.
Arguments Done {A} a st.
Arguments Hung {A} st.
Arguments Undef {A}.

Definition M (A : Type) : Type := inputs → state → outcome A.

#[global] Instance M_ret : MRet M := λ A a _ st, Done a st.
#[global] Instance M_bind : MBind M := λ A B f m e st,
  match m e st with
  | Done a st' => f a e st'
  | Hung st' => Hung st'
  | Undef => Undef
  end.

Definition get {A} (f : state → A) : M A := λ _ st, Done (f st) st.
Definition modify (f : state → state) : M unit := λ _ st, Done tt (f st).
Definition ask {A} (f : inputs → A) : M A := λ e st, Done (f e) st.
Definition hang {A} : M A := λ _ st, Hung st.
Definition undefined {A} : M A := λ _ _, Undef.

(** [for (x in l) body(x)] *)
Fixpoint for_each {A} (l : list A) (body : A → M unit) : M unit :=
  match l with
  | [] => mret tt
  | x :: l' => body x;; for_each l' body
  end.

(** ** Device primitives *)

Definition HIGH : Z := 1.
Definition LOW : Z := 0.

Definition micros : M Z := ask (λ e, to_ulong (clock e)).
(** [digitalRead(ch)], for the read number [k] of that channel in the
    pass. *)
Definition digitalRead (ch : Z) (k : nat) : M Z :=
  ask (λ e, Z.b2z (pin e ch k)).
Definition analogRead (ch : Z) : M Z := ask (λ e, to_ulong (adc e ch)).

Definition Serial_print (s : cstring) : M unit :=
  modify (λ st, set_serial (serial st ++ [s]) st).
Definition Serial_println (s : cstring) : M unit :=
  Serial_print (s ++ [CR; LF]).

Definition SD_begin : M bool := ask sd_begin.
Definition SD_exists (filename : cstring) : M bool :=
  get (λ st, bool_decide (is_Some (sd_files st !! filename))).

(** [SD.open(filename, FILE_WRITE)]: the file is created when missing and
    the handle writes at its end. *)
Definition SD_open_write (filename : cstring) : M unit :=
  modify (λ st,
    match sd_files st !! filename with
    | Some _ => st
    | None => set_sd_files (<[filename := []]> (sd_files st)) st
    end).

(** [dataFile.print(...)] on a handle opened on [filename]. *)
Definition File_print (filename : cstring) (s : cstring) : M unit :=
  modify (λ st, set_sd_files (alter (λ c, c ++ s) filename (sd_files st)) st).
Definition File_println (filename : cstring) (s : cstring) : M unit :=
  File_print filename (s ++ [CR; LF]).

(** [Wire.read()]: the next received byte, or [-1] when none is left. *)
Definition Wire_read (rx : list Z) : Z * list Z :=
  match rx with
  | [] => (-1, [])
  | b :: rx' => (b, rx')
  end.

(** Storing a text at [psram + off], one character per offset. *)
Fixpoint poke (mem : Z → ascii) (off : Z) (s : cstring) : Z → ascii :=
  match s with
  | [] => mem
  | c :: s' => poke (λ i, if i =? off then c else mem i) (off + 1) s'
  end.

(** [sprintf(&psram[off], ...)]: the text and its terminating NUL are
    stored; the number of characters, NUL excluded, is returned. *)
Definition sprintf_psram (off : Z) (text : cstring) : M Z :=
  modify (λ st, set_psram (poke (psram st) off (text ++ [NUL])) st);;
  mret (Z.of_nat (length text)).

(** ** The sketch *)

(** [setup] (lines 86 to 108).  Pin modes, the counter's reset line, the
    serial port and the I2C bus leave the modelled state alone; the wait for
    the console is taken to end.  What remains is line 107. *)
Definition setup : M unit :=
  now ← micros;
  modify (set_last_time_usec (to_ulong (now + SAMPLE_PERIOD_USEC))).

(** [read_S35770_Counter] (lines 117 to 125): three bytes are requested
    and composed big-endian.  Each [Wire.read()] is an [int], shifted as an
    [int] and converted to [unsigned long] by the assignment. *)
Definition read_S35770_Counter : M Z :=
  rx ← ask (λ e, take 3 (wire_reply e));
  let '(b0, rx) := Wire_read rx in
  let ext_counter := to_ulong (Z.shiftl b0 16) in
  let '(b1, rx) := Wire_read rx in
  let ext_counter := Z.lor ext_counter (to_ulong (Z.shiftl b1 8)) in
  let '(b2, rx) := Wire_read rx in
  let ext_counter := Z.lor ext_counter (to_ulong b2) in
  mret ext_counter.

(** The header line of every file (line 173). *)
Definition header : cstring :=
  cstr "time_usec,flywheel_count,flywheel_direction,starter_pwr_k15,starter_current,fuel_htr_current,starter_housing_strain".

(** The loop of lines 162 to 165, entered with [filename] holding the name
    for [n].  [n] is an [int]: incrementing it at [INT_MAX] is undefined.
    The fuel bounds the number of iterations; [StoreDataSDCard] passes one
    more than the number of files on the card, which is never used up
    (lemma [name_search_total] below). *)
Fixpoint name_search (fuel : nat) (n : Z) (filename : cstring) : M cstring :=
  found ← SD_exists filename;
  if found : bool then
    match fuel with
    | O => undefined
    | S fuel' =>
        if n <? INT_MAX
        then name_search fuel' (n + 1) (log_name (n + 1))
        else undefined
    end
  else mret filename.

(** [StoreDataSDCard] (lines 140 to 180). *)
Definition StoreDataSDCard : M Z :=
  let n := 0 in
  Serial_print (cstr "Initializing SD card...");;
  Serial_print (cstr "Logging to SD Card Sample period[uS]: ");;
  Serial_print (fmt_dec 1 SAMPLE_PERIOD_USEC);;
  Serial_print [LF];;
  ok ← SD_begin;
  (if negb ok then
     Serial_println (cstr "Card failed, or not present");;
     hang
   else mret tt);;
  Serial_println (cstr "card initialized.");;
  fuel ← get (λ st, S (size (sd_files st)));
  filename ← name_search fuel n (log_name n);
  (* SD.open(filename, FILE_READ) on a name that does not exist yields a
     closed handle; closing it does nothing. *)
  Serial_println filename;;
  SD_open_write filename;;
  File_println filename header;;
  last ← get memptr;
  for_each (seqZ 0 (last + 1)) (λ i,
    c ← get (λ st, psram st i);
    File_print filename [c]);;
  mret 0.

(** The test of line 203 on the two 32-bit values: the sum wraps, the
    comparison is the unsigned [>=]. *)
Definition is_due (time_usec last : Z) : bool :=
  to_ulong (last + SAMPLE_PERIOD_USEC) <=? time_usec.

(** Lines 191 to 201: the trigger.  The [&&] of line 191 reads the pin
    only when the flag is false; the read of line 196 is then the second
    read of the pass, and the first one otherwise. *)
Definition trigger_phase : M unit :=
  rec ← get record_daq_data;
  enter ← (if negb rec
           then level ← digitalRead START_SIG 0; mret (level =? HIGH)
           else mret false);
  if enter : bool then
    modify (set_record_daq_data true);;
    modify (set_memptr 0)
  else
    level ← digitalRead START_SIG (if rec : bool then 0 else 1)%nat;
    if level =? LOW then
      modify (set_record_daq_data false);;
      StoreDataSDCard;;
      Serial_print (cstr "Data Aquired!" ++ [LF])
    else mret tt.

(** Lines 203 to 232: one sample, when recording and due. *)
Definition sample_phase (time_usec : Z) : M unit :=
  rec ← get record_daq_data;
  last ← get last_time_usec;
  if rec && is_due time_usec last then
    modify (set_last_time_usec time_usec);;
    fly_wheel_count ← read_S35770_Counter;
    fly_wheel_dir ← digitalRead FLYWHEEL_DIR_CHANNEL 0;
    starter_pwr_k15 ← digitalRead STARTER_PWR_K15_CHANNEL 0;
    starter_current ← analogRead STARTER_CURRENT_CHANNEL;
    fuel_htr_current ← analogRead FUEL_HTR_CURRENT_CHANNEL;
    starter_strain ← analogRead STARTER_STRAIN_CURRENT_CHANNEL;
    off ← get memptr;
    written ← sprintf_psram off
      (format_sample time_usec fly_wheel_count fly_wheel_dir starter_pwr_k15
                     starter_current fuel_htr_current starter_strain);
    modify (set_char_count written);;
    modify (λ st, set_memptr (memptr st + char_count st) st);;
    cursor ← get memptr;
    if cursor - 1 >? EXTERNAL_MEM_SIZE
    then modify (set_memptr 0)
    else mret tt
  else mret tt.

(** [loop] (lines 186 to 233). *)
Definition loop : M unit :=
  time_usec ← micros;
  trigger_phase;;
  sample_phase time_usec.

(** ** The running machine

    The Arduino core calls [setup] once and [loop] forever.  A step is one
    pass of [loop] or, once the card has failed, one turn of the loop of
    line 154, which prints and never leaves. *)

Inductive machine : Type :=
  | Running (st : state)
  | NoCard (st : state)
  | Undefined.

(** The report of line 155. *)
Definition no_card_report : cstring := cstr "no-card detected" ++ [CR; LF].

Definition no_card_turn (st : state) : state :=
  set_serial (serial st ++ [no_card_report]) st.

Definition land {A} (o : outcome A) : machine :=
  match o with
  | Done _ st => Running st
  | Hung st => NoCard st
  | Undef => Undefined
  end.

Definition step (m : machine) (e : inputs) : machine :=
  match m with
  | Running st => land (loop e st)
  | NoCard st => NoCard (no_card_turn st)
  | Undefined => Undefined
  end.

Definition run (m : machine) (es : list inputs) : machine :=
  foldl step m es.

(** Power on: the globals as initialised on lines 72 to 79, whatever the
    PSRAM and the card hold, then [setup]. *)
Definition initial (mem : Z → ascii) (card : gmap (list ascii) (list ascii)) : state :=
  mkState 0 0 mem 0 false card [].

Definition power_on (e : inputs) (mem : Z → ascii)
    (card : gmap (list ascii) (list ascii)) : machine :=
  land (setup e (initial mem card)).

(** ** Notions used by the statements *)

(** The due test by elapsed time: the unsigned difference of the two
    32-bit values, compared with the period. *)
Definition elapsed_due (time_usec last : Z) : bool :=
  SAMPLE_PERIOD_USEC <=? to_ulong (time_usec - last).

(** Reading a decimal text back. *)
Definition is_digit (c : ascii) : bool :=
  (48 <=? nat_of_ascii c)%nat && (nat_of_ascii c <=? 57)%nat.

Fixpoint leading_digits (s : cstring) : cstring :=
  match s with
  | [] => []
  | c :: s' => if is_digit c then c :: leading_digits s' else []
  end.

Definition digits_value (s : cstring) : Z :=
  foldl (λ acc c, acc * 10 + (Z.of_nat (nat_of_ascii c) - 48)) 0 s.

(** The sequence number a file name was made from. *)
Definition name_number (filename : cstring) : Z :=
  digits_value (leading_digits (drop 4 filename)).

(** The characters [StoreDataSDCard] copies from the buffer. *)
Definition buffer_dump (st : state) : cstring :=
  psram st <$> seqZ 0 (memptr st + 1).

(** What [StoreDataSDCard] prints before it writes the file named
    [filename], and the state it leaves: one more file, holding the header
    line and the dump of the buffer. *)
Definition store_console (filename : cstring) : list cstring :=
  [ cstr "Initializing SD card...";
    cstr "Logging to SD Card Sample period[uS]: ";
    fmt_dec 1 SAMPLE_PERIOD_USEC;
    [LF];
    cstr "card initialized." ++ [CR; LF];
    filename ++ [CR; LF] ].

Definition stored (filename : cstring) (st : state) : state :=
  set_sd_files
    (<[filename := (header ++ [CR; LF]) ++ buffer_dump st]> (sd_files st))
    (set_serial (serial st ++ store_console filename) st).


(** What [StoreDataSDCard] has printed when it enters the loop of line
    154. *)
Definition failure_console : list cstring :=
  [ cstr "Initializing SD card...";
    cstr "Logging to SD Card Sample period[uS]: ";
    fmt_dec 1 SAMPLE_PERIOD_USEC;
    [LF];
    cstr "Card failed, or not present" ++ [CR; LF] ].

(** The state after the first branch of the trigger test. *)
Definition entered (st : state) : state :=
  set_memptr 0 (set_record_daq_data true st).

(** The state after the second branch when the trigger reads low and the
    file [filename] was written. *)
Definition drained (filename : cstring) (st : state) : state :=
  let st' := stored filename (set_record_daq_data false st) in
  set_serial (serial st' ++ [cstr "Data Aquired!" ++ [LF]]) st'.

(** The state after a sample whose text is [line] was taken at
    [time_usec]. *)
Definition appended (line : cstring) (time_usec : Z) (st : state) : state :=
  let cursor := memptr st + Z.of_nat (length line) in
  mkState time_usec (Z.of_nat (length line))
          (poke (psram st) (memptr st) (line ++ [NUL]))
          (if cursor - 1 >? EXTERNAL_MEM_SIZE then 0 else cursor)
          (record_daq_data st) (sd_files st) (serial st).

(** The state an outcome carries, if any. *)
Definition outcome_state {A} (o : outcome A) : option state :=
  match o with
  | Done _ st => Some st
  | Hung st => Some st
  | Undef => None
  end.

Definition machine_state (m : machine) : option state :=
  match m with
  | Running st => Some st
  | NoCard st => Some st
  | Undefined => None
  end.

(** The globals [StoreDataSDCard] reads. *)
Definition same_buffer (st st' : state) : Prop :=
  psram st' = psram st ∧ memptr st' = memptr st
  ∧ record_daq_data st' = record_daq_data st.

(** A card that holds the logs numbered 0, 1 and 2. *)
Definition three_logs : gmap (list ascii) (list ascii) :=
  {[ cstr "LOG_0000.txt" := header;
     cstr "LOG_0001.txt" := header;
     cstr "LOG_0002.txt" := header ]}.

(** Inputs of a pass at rest: trigger low, card present. *)
Definition at_rest (now : Z) : inputs :=
  mkInputs now (λ _ _, false) (λ _, 0) [0; 0; 0] true.

(** Inputs of a pass while cranking: trigger high. *)
Definition cranking_at (now : Z) : inputs :=
  mkInputs now (λ ch _, bool_decide (ch = START_SIG)) (λ _, 512) [0; 0; 5] true.

(** The trigger level first read on each pass, and the number of rising
    edges of a sequence of levels that follows the level [prev]. *)
Definition trigger_levels (es : list inputs) : list bool :=
  (λ e, pin e START_SIG 0) <$> es.

Fixpoint rising_edges (prev : bool) (levels : list bool) : nat :=
  match levels with
  | [] => O
  | level :: levels' =>
      ((if negb prev && level then 1 else 0) + rising_edges level levels')%nat
  end.

(** The passes on which the flag [record_daq_data] goes from [false] to
    [true] in the trigger test, each with the value of [memptr] right after
    the test. *)
Definition entry_cursor (m : machine) (e : inputs) : list Z :=
  match m with
  | Running st =>
      match trigger_phase e st with
      | Done _ st1 =>
          if negb (record_daq_data st) && record_daq_data st1
          then [memptr st1] else []
      | _ => []
      end
  | _ => []
  end.

Fixpoint entry_cursors (m : machine) (es : list inputs) : list Z :=
  match es with
  | [] => []
  | e :: es' => entry_cursor m e ++ entry_cursors (step m e) es'
  end.

(** The same inputs with a card that does not answer. *)
Definition card_missing (e : inputs) : inputs :=
  mkInputs (clock e) (pin e) (adc e) (wire_reply e) false.

(** The inputs of the [k]-th pass of an episode sampled on every pass: the
    clock advances by one period per pass, from 800 microseconds on. *)
Definition cranking (k : nat) : inputs :=
  cranking_at (800 + 400 * Z.of_nat k).

(** The line formatted on that pass. *)
Definition crank_line (k : nat) : cstring :=
  format_sample (800 + 400 * Z.of_nat k) 5 0 0 512 512 512.

(** A trigger that is low, high for two passes, low, and high again. *)
Definition two_episodes : list inputs :=
  [at_rest 100; cranking_at 1000; cranking_at 1400; at_rest 1800;
   cranking_at 2200].

(** The level that the read of line 196 finds when it is made: the second
    read of the pass if line 191 read the pin, the first one otherwise. *)
Definition exit_read (e : inputs) (st : state) : bool :=
  pin e START_SIG (if record_daq_data st then 0 else 1)%nat.

(** Inputs of a pass on which the trigger is high at the read of line 191
    and low again at a second read: a pulse shorter than the pass. *)
Definition pulse_at (now : Z) : inputs :=
  mkInputs now (λ ch k, bool_decide (ch = START_SIG) && bool_decide (k = 0%nat))
           (λ _, 512) [0; 0; 5] true.

(** A field of a line: [w] characters, all digits, that read as [v]. *)
Definition is_field (text : cstring) (w : nat) (v : Z) : Prop :=
  length text = w
  ∧ Forall (λ c, is_digit c = true) text
  ∧ digits_value text = v.

(** ** Further notions *)

(** Reading a line of the file back: every character that is not a digit
    ends a field. *)
Fixpoint parse_fields (s : cstring) (acc : Z) : list Z :=
  match s with
  | [] => []
  | c :: s' =>
      if is_digit c
      then parse_fields s' (acc * 10 + (Z.of_nat (nat_of_ascii c) - 48))
      else acc :: parse_fields s' 0
  end.

(** Inputs in their nominal ranges: three counter bytes, 10-bit analog
    conversions. *)
Definition nominal (e : inputs) : Prop :=
  (∃ b0 b1 b2 rest, wire_reply e = b0 :: b1 :: b2 :: rest
                    ∧ 0 ≤ b0 < 256 ∧ 0 ≤ b1 < 256 ∧ 0 ≤ b2 < 256)
  ∧ 0 ≤ adc e STARTER_CURRENT_CHANNEL < 1024
  ∧ 0 ≤ adc e FUEL_HTR_CURRENT_CHANNEL < 1024
  ∧ 0 ≤ adc e STARTER_STRAIN_CURRENT_CHANNEL < 1024.

(** One call of [StoreDataSDCard] per element of [es], each with the
    inputs of its own pass. *)
Fixpoint store_all (es : list inputs) (st : state) : outcome unit :=
  match es with
  | [] => Done tt st
  | e :: es' =>
      match StoreDataSDCard e st with
      | Done _ st' => store_all es' st'
      | Hung st' => Hung st'
      | Undef => Undef
      end
  end.

(** The names of the first [n] sequence numbers. *)
Definition first_names (n : nat) : list cstring :=
  (λ k, log_name (Z.of_nat k)) <$> seq 0 n.

(** The part of the buffer below the cursor. *)
Definition buffer_prefix (st : state) : cstring :=
  psram st <$> seqZ 0 (memptr st).






(** [dump_text] (lines 130 to 134); no line of the sketch calls it. *)
Definition dump_text : M unit :=
  count ← get char_count;
  for_each (seqZ 0 (count * 100)) (λ i,
    c ← get (λ st, psram st i);
    Serial_print [c]).
(** * Properties *)

(** ** Decimal formatting *)

Lemma length_fixed_digits k v : length (fixed_digits k v) = k.
Proof.
  revert v. induction k as [|k IH]; intros v; simpl; [done|].
  rewrite length_app, IH. simpl. lia.
Qed.

Lemma is_digit_digit_char d : 0 ≤ d < 10 → is_digit (digit_char d) = true.
Proof.
  intros Hd. unfold is_digit, digit_char.
  rewrite nat_ascii_embedding by lia.
  apply andb_true_iff. split; apply Nat.leb_le; lia.
Qed.

Lemma digit_char_value d :
  0 ≤ d < 10 → Z.of_nat (nat_of_ascii (digit_char d)) - 48 = d.
Proof.
  intros Hd. unfold digit_char. rewrite nat_ascii_embedding by lia. lia.
Qed.

Lemma fixed_digits_all_digits k v :
  Forall (λ c, is_digit c = true) (fixed_digits k v).
Proof.
  revert v. induction k as [|k IH]; intros v; simpl; [constructor|].
  apply Forall_app. split; [apply IH|].
  constructor; [|constructor].
  apply is_digit_digit_char. apply Z.mod_pos_bound. lia.
Qed.

Lemma digits_value_fixed_digits k v :
  0 ≤ v → digits_value (fixed_digits k v) = v mod 10 ^ Z.of_nat k.
Proof.
  unfold digits_value. revert v.
  induction k as [|k IH]; intros v Hv.
  - simpl. by rewrite Z.mod_1_r.
  - cbn [fixed_digits]. rewrite foldl_snoc, IH by (apply Z.div_pos; lia).
    rewrite digit_char_value by (apply Z.mod_pos_bound; lia).
    rewrite Nat2Z.inj_succ, Z.pow_succ_r by lia.
    rewrite Z.rem_mul_r by lia. lia.
Qed.

Lemma leading_digits_stop (d rest : cstring) c :
  Forall (λ c, is_digit c = true) d → is_digit c = false →
  leading_digits (d ++ c :: rest) = d.
Proof.
  intros Hd Hc. induction Hd as [|x d Hx _ IH]; simpl.
  - by rewrite Hc.
  - by rewrite Hx, IH.
Qed.

(** [ndigits] counts enough digits for every value below [10^10]. *)
Lemma ndigits_go_enough fuel v :
  0 ≤ v < 10 ^ Z.of_nat (S fuel) → v < 10 ^ Z.of_nat (ndigits_go fuel v).
Proof.
  revert v. induction fuel as [|fuel IH]; intros v Hv.
  - simpl in *. lia.
  - cbn [ndigits_go]. destruct (Z.ltb_spec v 10) as [Hlt|Hge].
    + simpl. lia.
    + rewrite Nat2Z.inj_succ, Z.pow_succ_r by lia.
      assert (v / 10 < 10 ^ Z.of_nat (ndigits_go fuel (v / 10))) as Hq.
      { apply IH. split; [apply Z.div_pos; lia|].
        apply Z.div_lt_upper_bound; [lia|].
        rewrite (Nat2Z.inj_succ (S fuel)), Z.pow_succ_r in Hv by lia. lia. }
      pose proof (Z.mul_div_le v 10). pose proof (Z.mod_pos_bound v 10).
      pose proof (Z.div_mod v 10). lia.
Qed.

Lemma ndigits_go_le fuel v : (1 ≤ ndigits_go fuel v ≤ S fuel)%nat.
Proof.
  revert v. induction fuel as [|fuel IH]; intros v; simpl; [lia|].
  destruct (v <? 10); [lia|]. specialize (IH (v / 10)). lia.
Qed.

(** Below [10^p] the count does not exceed [p]. *)
Lemma ndigits_go_small fuel v p :
  0 ≤ v < 10 ^ Z.of_nat p → (1 ≤ p)%nat → (ndigits_go fuel v ≤ p)%nat.
Proof.
  revert v p. induction fuel as [|fuel IH]; intros v p Hv Hp; simpl; [lia|].
  destruct (Z.ltb_spec v 10) as [Hlt|Hge]; [lia|].
  destruct p as [|p]; [lia|].
  destruct p as [|p]; [simpl in Hv; lia|].
  apply le_n_S. apply IH; [|lia]. split; [apply Z.div_pos; lia|].
  apply Z.div_lt_upper_bound; [lia|].
  rewrite (Nat2Z.inj_succ (S p)), Z.pow_succ_r in Hv by lia. lia.
Qed.

Lemma fmt_dec_fixed p v :
  0 ≤ v < 10 ^ Z.of_nat p → (1 ≤ p)%nat → fmt_dec p v = fixed_digits p v.
Proof.
  intros Hv Hp. unfold fmt_dec, ndigits.
  by rewrite Nat.max_l by (by apply ndigits_go_small).
Qed.

Lemma length_fmt_dec p v :
  0 ≤ v < 10 ^ Z.of_nat p → (1 ≤ p)%nat → length (fmt_dec p v) = p.
Proof. intros. rewrite fmt_dec_fixed by done. apply length_fixed_digits. Qed.

(** ** File names *)

Lemma fmt_dec_width_bounds p v :
  (p ≤ 10)%nat → 0 ≤ v < 10 ^ 10 →
  ∃ k, fmt_dec p v = fixed_digits k v ∧ (p ≤ k ≤ 10)%nat ∧ v < 10 ^ Z.of_nat k.
Proof.
  intros Hp Hv. exists (Nat.max p (ndigits v)). split; [done|].
  pose proof (ndigits_go_le 9 v) as Hle.
  pose proof (ndigits_go_enough 9 v Hv) as Hlt.
  fold (ndigits v) in Hle, Hlt. split; [lia|].
  eapply Z.lt_le_trans; [exact Hlt|].
  apply Z.pow_le_mono_r; lia.
Qed.

(** A name keeps all the digits of its number: the 15 characters that
    [filename] can hold cover ["LOG_"], up to ten digits and the dot. *)
Lemma name_number_log_name n : 0 ≤ n ≤ INT_MAX → name_number (log_name n) = n.
Proof.
  intros Hn. unfold INT_MAX in Hn.
  destruct (fmt_dec_width_bounds 4 n) as (k & Hfmt & Hk & Hlt); [lia|lia|].
  unfold name_number, log_name. rewrite Hfmt.
  change (drop 4 (take 15 (cstr "LOG_" ++ fixed_digits k n ++ cstr ".txt")))
    with (take 11 (fixed_digits k n ++ cstr ".txt")).
  rewrite take_app, length_fixed_digits.
  rewrite take_ge by (rewrite length_fixed_digits; lia).
  destruct (11 - k)%nat as [|m] eqn:Hm; [lia|].
  change (take (S m) (cstr ".txt")) with ("."%char :: take m (cstr "txt")).
  rewrite leading_digits_stop by (apply fixed_digits_all_digits || done).
  rewrite digits_value_fixed_digits by lia.
  apply Z.mod_small. lia.
Qed.

Lemma log_name_inj a b :
  0 ≤ a ≤ INT_MAX → 0 ≤ b ≤ INT_MAX → log_name a = log_name b → a = b.
Proof.
  intros Ha Hb Heq.
  rewrite <- (name_number_log_name a), <- (name_number_log_name b) by done.
  by rewrite Heq.
Qed.

(** Below ten thousand the name is ["LOG_"], four digits and [".txt"]. *)
Lemma log_name_four_digits n :
  0 ≤ n < 10000 → log_name n = cstr "LOG_" ++ fixed_digits 4 n ++ cstr ".txt".
Proof.
  intros Hn. unfold log_name. rewrite fmt_dec_fixed by (simpl; lia).
  apply take_ge. rewrite !length_app, length_fixed_digits. simpl. lia.
Qed.

(** ** Running the monad *)

Ltac unfold_monad :=
  unfold mbind, M_bind, mret, M_ret, get, modify, ask, hang, undefined.

Ltac run_monad := unfold_monad; cbn.

Lemma bind_Done {A B} (m : M A) (f : A → M B) e st a st' :
  m e st = Done a st' → (m ≫= f) e st = f a e st'.
Proof. intros H. unfold mbind, M_bind. by rewrite H. Qed.

Lemma bind_Hung {A B} (m : M A) (f : A → M B) e st st' :
  m e st = Hung st' → (m ≫= f) e st = Hung st'.
Proof. intros H. unfold mbind, M_bind. by rewrite H. Qed.

(** One statement of a sequence whose outcome is found by computation. *)
Ltac step := erewrite bind_Done; [|reflexivity].


#[global] Arguments log_name : simpl never.
#[global] Arguments format_sample : simpl never.
#[global] Arguments fmt_dec : simpl never.

(** ** The search for an unused name *)

(** Names that exist are files on the card: there are no more of them than
    files. *)
Lemma present_names_bound (fs : gmap (list ascii) (list ascii)) n :
  0 ≤ n ≤ INT_MAX + 1 →
  (∀ k, 0 ≤ k < n → is_Some (fs !! log_name k)) →
  n ≤ Z.of_nat (size fs).
Proof.
  intros Hn Hall.
  set (l := (λ i, log_name (Z.of_nat i)) <$> seq 0 (Z.to_nat n)).
  assert (NoDup l) as Hnd.
  { apply NoDup_fmap_2_strong; [|apply NoDup_seq].
    intros x y Hx%elem_of_seq Hy%elem_of_seq Heq.
    apply log_name_inj in Heq; lia. }
  assert (list_to_set (C:=gset (list ascii)) l ⊆ dom fs) as Hsub.
  { intros s Hs. apply elem_of_list_to_set in Hs.
    apply list_elem_of_fmap in Hs as (i & -> & Hi%elem_of_seq).
    apply elem_of_dom, Hall. lia. }
  apply subseteq_size in Hsub.
  rewrite size_list_to_set, size_dom in Hsub by done.
  unfold l in Hsub. rewrite length_fmap, length_seq in Hsub. lia.
Qed.

Lemma name_search_finds fuel n e st :
  0 ≤ n →
  (∀ k, 0 ≤ k < n → is_Some (sd_files st !! log_name k)) →
  n + Z.of_nat fuel ≤ INT_MAX →
  Z.of_nat (size (sd_files st)) < n + Z.of_nat fuel →
  ∃ m, name_search fuel n (log_name n) e st = Done (log_name m) st
       ∧ n ≤ m ≤ INT_MAX
       ∧ sd_files st !! log_name m = None
       ∧ ∀ k, 0 ≤ k < m → is_Some (sd_files st !! log_name k).
Proof.
  revert n. induction fuel as [|fuel IH]; intros n Hn Hbelow Hmax Hsize.
  - destruct (sd_files st !! log_name n) as [c|] eqn:Hlook.
    + exfalso.
      assert (n + 1 ≤ Z.of_nat (size (sd_files st))); [|lia].
      apply present_names_bound; [lia|]. intros k Hk.
      destruct (decide (k = n)) as [->|]; [by rewrite Hlook|apply Hbelow; lia].
    + exists n. simpl. unfold SD_exists. run_monad.
      rewrite Hlook. rewrite bool_decide_eq_false_2 by (by intros [? ?]).
      repeat split; (done || lia).
  - destruct (sd_files st !! log_name n) as [c|] eqn:Hlook.
    + destruct (IH (n + 1)) as (m & Hrun & Hm & Hfree & Hall); [lia| |lia|lia|].
      { intros k Hk. destruct (decide (k = n)) as [->|];
          [by rewrite Hlook|apply Hbelow; lia]. }
      exists m. cbn [name_search]. unfold SD_exists at 1. run_monad.
      rewrite Hlook. rewrite bool_decide_eq_true_2 by done.
      destruct (Z.ltb_spec n INT_MAX); [|lia].
      repeat split; (done || lia).
    + exists n. cbn [name_search]. unfold SD_exists. run_monad.
      rewrite Hlook. rewrite bool_decide_eq_false_2 by (by intros [? ?]).
      repeat split; (done || lia).
Qed.

(** With the fuel [StoreDataSDCard] passes, the search returns, and what it
    returns is the name of the least number whose name is not on the
    card. *)
Lemma name_search_total e st :
  Z.of_nat (size (sd_files st)) < INT_MAX →
  ∃ m, name_search (S (size (sd_files st))) 0 (log_name 0) e st
         = Done (log_name m) st
       ∧ 0 ≤ m ≤ INT_MAX
       ∧ sd_files st !! log_name m = None
       ∧ ∀ k, 0 ≤ k < m → is_Some (sd_files st !! log_name k).
Proof.
  intros Hsize. apply name_search_finds; [lia|intros; lia|lia|lia].
Qed.

(** ** [StoreDataSDCard] *)

Lemma alter_present {A} (m : gmap (list ascii) A) i f x :
  m !! i = Some x → alter f i m = <[i := f x]> m.
Proof.
  intros Hx. apply map_eq. intros j. rewrite lookup_alter, lookup_insert.
  destruct (decide (i = j)) as [->|]; [by rewrite Hx|done].
Qed.

Lemma set_sd_files_same st : set_sd_files (sd_files st) st = st.
Proof. by destruct st. Qed.

Lemma for_each_print filename l e st c0 :
  sd_files st !! filename = Some c0 →
  for_each l (λ i, c ← get (λ st, psram st i); File_print filename [c]) e st
  = Done tt (set_sd_files (<[filename := c0 ++ (psram st <$> l)]> (sd_files st)) st).
Proof.
  revert st c0. induction l as [|i l IH]; intros st c0 Hc0.
  - simpl. rewrite app_nil_r, insert_id by done. by rewrite set_sd_files_same.
  - cbn [for_each]. step.
    rewrite (IH _ (c0 ++ [psram st i])).
    2:{ cbn. rewrite (alter_present _ _ _ _ Hc0). apply lookup_insert_eq. }
    cbn. rewrite (alter_present _ _ _ _ Hc0), insert_insert_eq, <- app_assoc.
    done.
Qed.

Ltac simpl_state :=
  unfold set_last_time_usec, set_char_count, set_psram, set_memptr,
         set_record_daq_data, set_sd_files, set_serial;
  cbn [last_time_usec char_count psram memptr record_daq_data sd_files serial].

Ltac simpl_state_in H :=
  unfold set_last_time_usec, set_char_count, set_psram, set_memptr,
         set_record_daq_data, set_sd_files, set_serial in H;
  cbn [last_time_usec char_count psram memptr record_daq_data sd_files serial]
    in H.

Ltac step_state := step; simpl_state.


Lemma name_search_eq fuel n filename e st :
  name_search fuel n filename e st =
  if bool_decide (is_Some (sd_files st !! filename)) then
    match fuel with
    | O => Undef
    | S fuel' =>
        if n <? INT_MAX
        then name_search fuel' (n + 1) (log_name (n + 1)) e st
        else Undef
    end
  else Done filename st.
Proof.
  destruct fuel; cbn [name_search]; unfold SD_exists; unfold_monad;
    destruct (bool_decide (is_Some (sd_files st !! filename)));
    try destruct (n <? INT_MAX); reflexivity.
Qed.

Lemma name_search_cases fuel n filename e st :
  name_search fuel n filename e st = Undef
  ∨ ∃ found, name_search fuel n filename e st = Done found st
             ∧ sd_files st !! found = None.
Proof.
  revert n filename. induction fuel as [|fuel IH]; intros n filename;
    rewrite name_search_eq; case_bool_decide as Hlook.
  - by left.
  - right. exists filename. split; [done|].
    by apply eq_None_not_Some.
  - destruct (n <? INT_MAX); [apply IH|by left].
  - right. exists filename. split; [done|].
    by apply eq_None_not_Some.
Qed.

(** The statements of [StoreDataSDCard] after the search returned
    [Hrun], on a name that [Hfree] says is unused. *)
Ltac write_file Hrun Hfree :=
  rewrite (bind_Done _ _ _ _ _ _ Hrun);
  do 2 step_state; rewrite Hfree; simpl_state; do 2 step_state;
  rewrite (alter_present _ _ _ [] (lookup_insert_eq _ _ _)), insert_insert_eq;
  cbn [app];
  erewrite bind_Done;
    [|apply (for_each_print _ _ _ _ (header ++ [CR; LF]));
      apply lookup_insert_eq];
  simpl_state; rewrite insert_insert_eq;
  unfold mret, M_ret, stored, store_console, buffer_dump; simpl_state;
  rewrite <- !app_assoc.

Lemma StoreDataSDCard_cases e st :
  sd_begin e = true →
  StoreDataSDCard e st = Undef
  ∨ ∃ filename, StoreDataSDCard e st = Done 0 (stored filename st)
                ∧ sd_files st !! filename = None.
Proof.
  intros Hbegin.
  unfold StoreDataSDCard. do 4 step_state.
  erewrite bind_Done; [|unfold SD_begin, ask; rewrite Hbegin; reflexivity].
  cbn [negb]. do 3 step_state.
  match goal with
  | |- context [mbind _ (name_search ?f ?n ?x) e ?s] =>
      destruct (name_search_cases f n x e s) as [Hrun|(found & Hrun & Hfree)]
  end.
  - left. unfold mbind, M_bind at 1. by rewrite Hrun.
  - right. exists found. cbn [sd_files] in Hfree.
    split; [|done]. by write_file Hrun Hfree.
Qed.

(** When the card answers and holds fewer than [INT_MAX] files, the call
    returns, having written the file of the least unused number. *)
Lemma StoreDataSDCard_done e st :
  sd_begin e = true →
  Z.of_nat (size (sd_files st)) < INT_MAX →
  ∃ m, StoreDataSDCard e st = Done 0 (stored (log_name m) st)
       ∧ 0 ≤ m ≤ INT_MAX
       ∧ sd_files st !! log_name m = None
       ∧ ∀ k, 0 ≤ k < m → is_Some (sd_files st !! log_name k).
Proof.
  intros Hbegin Hsize.
  unfold StoreDataSDCard. do 4 step_state.
  erewrite bind_Done; [|unfold SD_begin, ask; rewrite Hbegin; reflexivity].
  cbn [negb]. do 3 step_state.
  match goal with
  | |- context [mbind _ (name_search _ _ _) e ?s] =>
      destruct (name_search_total e s) as (m & Hrun & Hm & Hfree & Hall);
        [exact Hsize|]
  end.
  cbn [sd_files] in Hrun, Hfree, Hall. exists m.
  split; [|done]. by write_file Hrun Hfree.
Qed.

Lemma StoreDataSDCard_hung e st :
  sd_begin e = false →
  StoreDataSDCard e st = Hung (set_serial (serial st ++ failure_console) st).
Proof.
  intros Hbegin. unfold StoreDataSDCard. do 4 step_state.
  erewrite bind_Done; [|unfold SD_begin, ask; rewrite Hbegin; reflexivity].
  cbn [negb]. erewrite bind_Hung; [reflexivity|].
  step_state. unfold hang, failure_console. simpl_state.
  by rewrite <- !app_assoc.
Qed.


Lemma StoreDataSDCard_same_buffer e st st' :
  outcome_state (StoreDataSDCard e st) = Some st' → same_buffer st st'.
Proof.
  destruct (sd_begin e) eqn:Hbegin.
  - destruct (StoreDataSDCard_cases e st Hbegin) as [->|(f & -> & _)];
      [done|].
    intros [= <-]. by repeat split.
  - rewrite StoreDataSDCard_hung by done. intros [= <-]. by repeat split.
Qed.

(** ** The trigger test *)

Lemma set_record_daq_data_same st :
  set_record_daq_data (record_daq_data st) st = st.
Proof. by destruct st. Qed.

Ltac read_pin H :=
  erewrite bind_Done;
    [|unfold digitalRead, ask; unfold_monad; rewrite H; reflexivity];
  cbn [Z.b2z]; unfold HIGH, LOW; cbn [Z.eqb Pos.eqb]; cbv iota.

(** The first branch: the flag is false and line 191 reads high.  The
    second read is not made. *)
Lemma trigger_phase_enter e st :
  record_daq_data st = false → pin e START_SIG 0 = true →
  trigger_phase e st = Done tt (entered st).
Proof.
  intros Hrec Hpin. unfold trigger_phase. step. rewrite Hrec. cbn [negb].
  read_pin Hpin. by step.
Qed.

Lemma trigger_phase_hold e st :
  record_daq_data st = true → pin e START_SIG 0 = true →
  trigger_phase e st = Done tt st.
Proof.
  intros Hrec Hpin. unfold trigger_phase. step. rewrite Hrec. cbn [negb].
  step. cbv iota. read_pin Hpin. done.
Qed.

(** The flag is false, line 191 reads low and line 196 reads high: neither
    branch does anything. *)
Lemma trigger_phase_missed e st :
  record_daq_data st = false →
  pin e START_SIG 0 = false → pin e START_SIG 1 = true →
  trigger_phase e st = Done tt st.
Proof.
  intros Hrec Hpin0 Hpin1. unfold trigger_phase. step. rewrite Hrec.
  cbn [negb]. read_pin Hpin0. read_pin Hpin1. done.
Qed.

Lemma trigger_phase_low_pre e st :
  pin e START_SIG 0 = false → exit_read e st = false →
  trigger_phase e st =
  (StoreDataSDCard;; Serial_print (cstr "Data Aquired!" ++ [LF]))
    e (set_record_daq_data false st).
Proof.
  intros Hpin Hexit. unfold trigger_phase. step. unfold exit_read in Hexit.
  destruct (record_daq_data st); cbn [negb].
  - step. cbv iota. read_pin Hexit. by step.
  - read_pin Hpin. read_pin Hexit. by step.
Qed.

Lemma trigger_phase_drain e st :
  pin e START_SIG 0 = false → exit_read e st = false → sd_begin e = true →
  Z.of_nat (size (sd_files st)) < INT_MAX →
  ∃ m, trigger_phase e st = Done tt (drained (log_name m) st)
       ∧ 0 ≤ m ≤ INT_MAX
       ∧ sd_files st !! log_name m = None
       ∧ ∀ k, 0 ≤ k < m → is_Some (sd_files st !! log_name k).
Proof.
  intros Hpin Hexit Hbegin Hsize. rewrite trigger_phase_low_pre by done.
  destruct (StoreDataSDCard_done e (set_record_daq_data false st))
    as (m & Hrun & Hm); [done|done|].
  exists m. split; [|exact Hm].
  rewrite (bind_Done _ _ _ _ _ _ Hrun). reflexivity.
Qed.

Lemma trigger_phase_no_card e st :
  pin e START_SIG 0 = false → exit_read e st = false → sd_begin e = false →
  trigger_phase e st =
  Hung (set_serial (serial st ++ failure_console) (set_record_daq_data false st)).
Proof.
  intros Hpin Hexit Hbegin. rewrite trigger_phase_low_pre by done.
  erewrite bind_Hung; [reflexivity|]. by rewrite StoreDataSDCard_hung.
Qed.

(** Line 191 reads low: either line 196 reads low too and
    [StoreDataSDCard] runs, or it reads high, which can only be its second
    read, and nothing happens. *)
Lemma trigger_phase_low_cases e st :
  pin e START_SIG 0 = false →
  (exit_read e st = false
   ∧ trigger_phase e st =
     (StoreDataSDCard;; Serial_print (cstr "Data Aquired!" ++ [LF]))
       e (set_record_daq_data false st))
  ∨ (record_daq_data st = false ∧ pin e START_SIG 1 = true
     ∧ trigger_phase e st = Done tt st).
Proof.
  intros Hpin. destruct (exit_read e st) eqn:Hexit.
  - right. unfold exit_read in Hexit.
    destruct (record_daq_data st) eqn:Hrec; [congruence|].
    split_and!; [done|done|by apply trigger_phase_missed].
  - left. split; [done|by apply trigger_phase_low_pre].
Qed.

Lemma trigger_phase_low_state e st st' :
  pin e START_SIG 0 = false →
  outcome_state (trigger_phase e st) = Some st' →
  record_daq_data st' = false ∧ psram st' = psram st ∧ memptr st' = memptr st.
Proof.
  intros Hpin.
  destruct (trigger_phase_low_cases e st Hpin)
    as [[_ ->]|(Hrec & _ & ->)]; [|by intros [= <-]].
  unfold mbind, M_bind at 1.
  destruct (StoreDataSDCard e (set_record_daq_data false st)) as [r s|s|] eqn:Hs;
    [| |done].
  - intros [= <-].
    destruct (StoreDataSDCard_same_buffer e (set_record_daq_data false st) s)
      as (? & ? & ?); [by rewrite Hs|]. by repeat split.
  - intros [= <-].
    destruct (StoreDataSDCard_same_buffer e (set_record_daq_data false st) s)
      as (? & ? & ?); [by rewrite Hs|]. by repeat split.
Qed.

(** ** One sample *)

Lemma read_S35770_Counter_pure e :
  ∃ c, ∀ st, read_S35770_Counter e st = Done c st.
Proof.
  unfold read_S35770_Counter, ask. unfold_monad.
  destruct (Wire_read (take 3 (wire_reply e))) as [b0 rx0].
  destruct (Wire_read rx0) as [b1 rx1].
  destruct (Wire_read rx1) as [b2 rx2].
  eexists. intros st. reflexivity.
Qed.

Lemma sample_phase_idle t e st :
  record_daq_data st && is_due t (last_time_usec st) = false →
  sample_phase t e st = Done tt st.
Proof. intros Hc. unfold sample_phase. do 2 step. by rewrite Hc. Qed.

Lemma sample_phase_due t e st c :
  (∀ st', read_S35770_Counter e st' = Done c st') →
  record_daq_data st && is_due t (last_time_usec st) = true →
  sample_phase t e st =
  Done tt (appended
             (format_sample t c
                (Z.b2z (pin e FLYWHEEL_DIR_CHANNEL 0))
                (Z.b2z (pin e STARTER_PWR_K15_CHANNEL 0))
                (to_ulong (adc e STARTER_CURRENT_CHANNEL))
                (to_ulong (adc e FUEL_HTR_CURRENT_CHANNEL))
                (to_ulong (adc e STARTER_STRAIN_CURRENT_CHANNEL)))
             t st).
Proof.
  intros Hread Hc. unfold sample_phase. do 2 step. rewrite Hc.
  step_state. rewrite (bind_Done _ _ _ _ _ _ (Hread _)).
  do 6 step_state. do 4 step_state.
  unfold appended.
  match goal with |- context [?a >? ?b] => destruct (a >? b) end; reflexivity.
Qed.

(** * The claims *)

(** ** The sample line *)

Lemma fmt_dec_is_field p v :
  0 ≤ v < 10 ^ Z.of_nat p → (1 ≤ p)%nat → is_field (fmt_dec p v) p v.
Proof.
  intros Hv Hp. rewrite fmt_dec_fixed by done. split_and!.
  - apply length_fixed_digits.
  - apply fixed_digits_all_digits.
  - rewrite digits_value_fixed_digits by lia. apply Z.mod_small. lia.
Qed.

(** C8: the sample with time 1234567890, count 16777215, direction 1,
    power 0, current 1023, heater current 0 and strain 512 is formatted as
    the line [1234567890,16777215,1,0,1023,0000,0512] followed by a newline.
    For every sample whose values fit their widths the line is seven fields
    separated by commas and ended by the newline: the time in exactly ten
    digits, the count in eight, direction and power in one each, each
    analog value in four, every field reading back as its value, so short
    values are padded with zeros on the left; the sample with time 1000,
    count 5 and current 7 shows the padding. *)
Theorem format_sample_reference_line :
  format_sample 1234567890 16777215 1 0 1023 0 512
    = cstr "1234567890,16777215,1,0,1023,0000,0512" ++ [LF]
  ∧ format_sample 1000 5 0 1 7 0 512
    = cstr "0000001000,00000005,0,1,0007,0000,0512" ++ [LF]
  ∧ ∀ t c d p a b s,
      0 ≤ t < 10 ^ 10 → 0 ≤ c < 10 ^ 8 → 0 ≤ d < 10 → 0 ≤ p < 10 →
      0 ≤ a < 10 ^ 4 → 0 ≤ b < 10 ^ 4 → 0 ≤ s < 10 ^ 4 →
      ∃ ft fc fd fp fa fb fs,
        format_sample t c d p a b s
        = ft ++ cstr "," ++ fc ++ cstr "," ++ fd ++ cstr "," ++ fp ++ cstr ","
             ++ fa ++ cstr "," ++ fb ++ cstr "," ++ fs ++ [LF]
        ∧ is_field ft 10 t ∧ is_field fc 8 c
        ∧ is_field fd 1 d ∧ is_field fp 1 p
        ∧ is_field fa 4 a ∧ is_field fb 4 b ∧ is_field fs 4 s.
Proof.
  split; [vm_compute; reflexivity|]. split; [vm_compute; reflexivity|].
  intros t c d p a b s Ht Hc Hd Hp Ha Hb Hs.
  exists (fmt_dec 10 t), (fmt_dec 8 c), (fmt_dec 1 d), (fmt_dec 1 p),
         (fmt_dec 4 a), (fmt_dec 4 b), (fmt_dec 4 s).
  split; [reflexivity|].
  split_and!; apply fmt_dec_is_field; (done || lia).
Qed.

Lemma format_sample_reference_line_witness :
  ∃ ft fc fd fp fa fb fs,
    format_sample 86037600 16777215 1 0 7 1023 512
    = ft ++ cstr "," ++ fc ++ cstr "," ++ fd ++ cstr "," ++ fp ++ cstr ","
         ++ fa ++ cstr "," ++ fb ++ cstr "," ++ fs ++ [LF]
    ∧ is_field ft 10 86037600 ∧ is_field fc 8 16777215
    ∧ is_field fd 1 1 ∧ is_field fp 1 0
    ∧ is_field fa 4 7 ∧ is_field fb 4 1023 ∧ is_field fs 4 512.
Proof.
  apply (proj2 (proj2 format_sample_reference_line)); lia.
Defined.

(** ** The due test *)

Lemma to_ulong_cases z :
  - ULONG_MOD ≤ z < 2 * ULONG_MOD →
  to_ulong z = if z <? 0 then z + ULONG_MOD
               else if z <? ULONG_MOD then z else z - ULONG_MOD.
Proof.
  intros Hz. unfold to_ulong.
  destruct (Z.ltb_spec z 0); [|destruct (Z.ltb_spec z ULONG_MOD)].
  - symmetry. apply (Z.mod_unique z ULONG_MOD (-1)); unfold ULONG_MOD in *; lia.
  - apply Z.mod_small. lia.
  - symmetry. apply (Z.mod_unique z ULONG_MOD 1); unfold ULONG_MOD in *; lia.
Qed.

(** C3, a pair on which the test of line 203 and the elapsed time
    disagree: 50 microseconds after a sample taken 100 microseconds before
    the counter wraps, the sum [last_time_usec + 400] has wrapped to 300 and
    the test holds, though 50 is less than the period. *)
Lemma is_due_wrap_counterexample :
  is_due 4294967246 4294967196 = true
  ∧ elapsed_due 4294967246 4294967196 = false.
Proof. split; vm_compute; reflexivity. Qed.

(** C3 as amended: on 32-bit values the test of line 203 agrees with the
    test on the elapsed time exactly when no wrap lies between the operands
    of its comparison: either [last + 400] does not wrap and the clock has
    not wrapped since the last sample, or both have. *)
Theorem is_due_agrees_iff now last :
  0 ≤ now < ULONG_MOD → 0 ≤ last < ULONG_MOD →
  (is_due now last = elapsed_due now last
   ↔ (last + SAMPLE_PERIOD_USEC < ULONG_MOD ∧ last ≤ now)
     ∨ (ULONG_MOD ≤ last + SAMPLE_PERIOD_USEC ∧ now < last)).
Proof.
  intros Hnow Hlast. unfold is_due, elapsed_due.
  rewrite !to_ulong_cases by (unfold SAMPLE_PERIOD_USEC, ULONG_MOD in *; lia).
  unfold SAMPLE_PERIOD_USEC, ULONG_MOD in *.
  repeat match goal with
         | |- context [?a <? ?b] => destruct (Z.ltb_spec a b)
         | |- context [?a <=? ?b] => destruct (Z.leb_spec a b)
         end; split; intros; (lia || done || (exfalso; lia)).
Qed.

Lemma is_due_agrees_iff_witness :
  is_due 1000 500 = elapsed_due 1000 500
  ↔ (500 + SAMPLE_PERIOD_USEC < ULONG_MOD ∧ 500 ≤ 1000)
    ∨ (ULONG_MOD ≤ 500 + SAMPLE_PERIOD_USEC ∧ 1000 < 500).
Proof. apply (is_due_agrees_iff 1000 500); vm_compute; split; congruence. Defined.

(** ** Allocating a file name *)

(** C9: the search of lines 161 to 165 starts at number 0, goes up by one
    while the name exists, and returns the name of the least number that is
    not on the card, written with four digits when it is below ten
    thousand; on a card holding the logs 0, 1 and 2 it returns
    [LOG_0003.txt]. *)
Theorem name_search_least_unused e st :
  Z.of_nat (size (sd_files st)) < INT_MAX →
  ∃ m, name_search (S (size (sd_files st))) 0 (log_name 0) e st
         = Done (log_name m) st
       ∧ 0 ≤ m
       ∧ sd_files st !! log_name m = None
       ∧ (∀ k, 0 ≤ k < m → is_Some (sd_files st !! log_name k))
       ∧ (m < 10000 →
          log_name m = cstr "LOG_" ++ fixed_digits 4 m ++ cstr ".txt")
       ∧ (sd_files st = three_logs →
          m = 3 ∧ log_name m = cstr "LOG_0003.txt").
Proof.
  intros Hsize.
  destruct (name_search_total e st Hsize) as (m & Hrun & Hm & Hfree & Hall).
  exists m. split_and!; try done; try lia.
  - intros Hlt. apply log_name_four_digits. lia.
  - intros Hcard. rewrite Hcard in Hfree, Hall.
    assert (m = 3) as ->; [|by vm_compute].
    destruct (decide (m < 3)) as [Hlt|Hge].
    + assert (m = 0 ∨ m = 1 ∨ m = 2) as [->|[->| ->]] by lia;
        vm_compute in Hfree; discriminate.
    + destruct (decide (m = 3)) as [->|Hne]; [done|].
      destruct (Hall 3) as [c Hc]; [lia|]. vm_compute in Hc. discriminate.
Qed.

Lemma name_search_least_unused_witness :
  Z.of_nat (size (sd_files (initial (λ _, NUL) three_logs))) < INT_MAX
  ∧ name_search 4 0 (log_name 0) (at_rest 0) (initial (λ _, NUL) three_logs)
    = Done (cstr "LOG_0003.txt") (initial (λ _, NUL) three_logs).
Proof.
  assert (Z.of_nat (size (sd_files (initial (λ _, NUL) three_logs))) < INT_MAX)
    as Hsize by (vm_compute; reflexivity).
  split; [exact Hsize|].
  destruct (name_search_least_unused (at_rest 0) _ Hsize)
    as (m & Hrun & _ & _ & _ & _ & Hthree).
  destruct (Hthree eq_refl) as [_ <-]. exact Hrun.
Defined.

(** ** Calling [StoreDataSDCard] twice *)

(** C10: [StoreDataSDCard] leaves [psram], [memptr] and
    [record_daq_data] as they were, however it ends; called twice in a row
    on a card that answers, it writes two files with different names,
    neither of which existed before, and the same contents: the header line
    and the dump of the buffer. *)
Theorem StoreDataSDCard_twice e1 e2 st :
  sd_begin e1 = true → sd_begin e2 = true →
  Z.of_nat (size (sd_files st)) + 1 < INT_MAX →
  (∀ e st', outcome_state (StoreDataSDCard e st) = Some st' →
            same_buffer st st')
  ∧ ∃ f1 f2 st1 st2,
      StoreDataSDCard e1 st = Done 0 st1
      ∧ StoreDataSDCard e2 st1 = Done 0 st2
      ∧ same_buffer st st1 ∧ same_buffer st st2
      ∧ f1 ≠ f2
      ∧ sd_files st !! f1 = None
      ∧ sd_files st1 !! f2 = None
      ∧ sd_files st1 = <[f1 := (header ++ [CR; LF]) ++ buffer_dump st]> (sd_files st)
      ∧ sd_files st2 = <[f2 := (header ++ [CR; LF]) ++ buffer_dump st]> (sd_files st1).
Proof.
  intros Hb1 Hb2 Hsize. split; [intros e st'; apply StoreDataSDCard_same_buffer|].
  destruct (StoreDataSDCard_done e1 st Hb1) as (m1 & Hrun1 & _ & Hfree1 & _);
    [lia|].
  assert (Z.of_nat (size (sd_files (stored (log_name m1) st))) < INT_MAX)
    as Hsize1.
  { unfold stored. simpl_state. rewrite map_size_insert_None by done. lia. }
  destruct (StoreDataSDCard_done e2 _ Hb2 Hsize1)
    as (m2 & Hrun2 & _ & Hfree2 & _).
  exists (log_name m1), (log_name m2), (stored (log_name m1) st),
         (stored (log_name m2) (stored (log_name m1) st)).
  split_and!; try done.
  - intros Heq. rewrite <- Heq in Hfree2. unfold stored in Hfree2.
    simpl_state_in Hfree2. by rewrite lookup_insert_eq in Hfree2.
Qed.

Lemma StoreDataSDCard_twice_witness :
  ∃ f1 f2 st1 st2,
    StoreDataSDCard (at_rest 0) (initial (λ _, NUL) three_logs) = Done 0 st1
    ∧ StoreDataSDCard (at_rest 7) st1 = Done 0 st2
    ∧ f1 ≠ f2
    ∧ sd_files st2 !! f1 = Some ((header ++ [CR; LF]) ++ [NUL])
    ∧ sd_files st2 !! f2 = Some ((header ++ [CR; LF]) ++ [NUL]).
Proof.
  destruct (StoreDataSDCard_twice (at_rest 0) (at_rest 7)
              (initial (λ _, NUL) three_logs))
    as (_ & f1 & f2 & st1 & st2 & H1 & H2 & _ & _ & Hne & _ & _ & Hf1 & Hf2);
    [reflexivity|reflexivity|vm_compute; reflexivity|].
  exists f1, f2, st1, st2.
  split; [exact H1|]. split; [exact H2|]. split; [exact Hne|]. split.
  - rewrite Hf2, Hf1, lookup_insert_ne by (intros Heq; by apply Hne).
    rewrite lookup_insert_eq. reflexivity.
  - rewrite Hf2, lookup_insert_eq. reflexivity.
Defined.

(** ** One pass of [loop] *)

Lemma loop_eq e st :
  loop e st =
  match trigger_phase e st with
  | Done _ st1 => sample_phase (to_ulong (clock e)) e st1
  | Hung st1 => Hung st1
  | Undef => Undef
  end.
Proof. reflexivity. Qed.

(** The sample returns and leaves the flag, the card and the console
    alone. *)
Lemma sample_phase_done t e st :
  ∃ st1, sample_phase t e st = Done tt st1
         ∧ record_daq_data st1 = record_daq_data st
         ∧ sd_files st1 = sd_files st
         ∧ serial st1 = serial st.
Proof.
  destruct (record_daq_data st && is_due t (last_time_usec st)) eqn:Hc.
  - destruct (read_S35770_Counter_pure e) as [c Hread].
    eexists. split; [by apply (sample_phase_due t e st c)|]. done.
  - exists st. by rewrite sample_phase_idle.
Qed.

Lemma run_NoCard st es : ∃ st', run (NoCard st) es = NoCard st'.
Proof.
  revert st. induction es as [|e es IH]; intros st; [by exists st|].
  apply (IH (no_card_turn st)).
Qed.

Lemma run_Undefined es : run Undefined es = Undefined.
Proof. induction es as [|e es IH]; [done|exact IH]. Qed.

(** ** The order of the two tests *)

(** C7: when [record_daq_data] is false and line 191 reads the trigger
    high, the trigger test takes its first branch only, whatever level a
    second read would find: the flag is set, [memptr] is 0, nothing is
    printed and no file is written, so the test of line 196 was not made
    and [StoreDataSDCard] was not called, even for a pulse that is over
    before the pass ends.  Whenever the console shows that
    [StoreDataSDCard] was called, the pass was not one that enters, the read
    of line 196 found the trigger low, and the flag is false afterwards; no
    pass does both.  The entry test is not made again either: a pass that
    reads low on line 191 and high on line 196 does nothing. *)
Theorem trigger_entry_excludes_exit e st :
  (record_daq_data st = false → pin e START_SIG 0 = true →
   trigger_phase e st = Done tt (entered st)
   ∧ record_daq_data (entered st) = true
   ∧ memptr (entered st) = 0
   ∧ serial (entered st) = serial st
   ∧ sd_files (entered st) = sd_files st)
  ∧ (∀ st', outcome_state (trigger_phase e st) = Some st' →
            serial st' ≠ serial st →
            ¬ (record_daq_data st = false ∧ pin e START_SIG 0 = true)
            ∧ exit_read e st = false
            ∧ record_daq_data st' = false)
  ∧ (∀ st', outcome_state (trigger_phase e st) = Some st' →
            ¬ (record_daq_data st = false ∧ record_daq_data st' = true
               ∧ serial st' ≠ serial st))
  ∧ (record_daq_data st = false →
     pin e START_SIG 0 = false → pin e START_SIG 1 = true →
     trigger_phase e st = Done tt st).
Proof.
  assert (∀ st', outcome_state (trigger_phase e st) = Some st' →
                 serial st' ≠ serial st →
                 pin e START_SIG 0 = false ∧ exit_read e st = false
                 ∧ record_daq_data st' = false)
    as Hexit.
  { intros st' Hout Hser. destruct (pin e START_SIG 0) eqn:Hpin.
    - exfalso. apply Hser. destruct (record_daq_data st) eqn:Hrec.
      + rewrite trigger_phase_hold in Hout by done. by injection Hout as <-.
      + rewrite trigger_phase_enter in Hout by done. by injection Hout as <-.
    - split; [done|]. split; [|by destruct (trigger_phase_low_state e st st')].
      destruct (trigger_phase_low_cases e st Hpin)
        as [[Hlow _]|(_ & _ & Hmiss)]; [done|].
      exfalso. apply Hser. rewrite Hmiss in Hout. by injection Hout as <-. }
  split_and!.
  - intros Hrec Hpin. by rewrite trigger_phase_enter.
  - intros st' Hout Hser. destruct (Hexit st' Hout Hser) as (Hpin & Hlow & Hrec').
    split_and!; [|done|done]. intros [_ Hhigh]. congruence.
  - intros st' Hout (_ & Hrec' & Hser).
    destruct (Hexit st' Hout Hser) as (_ & _ & ?). congruence.
  - apply trigger_phase_missed.
Qed.

Lemma trigger_entry_excludes_exit_witness :
  record_daq_data (initial (λ _, NUL) ∅) = false
  ∧ pin (pulse_at 1000) START_SIG 0 = true
  ∧ pin (pulse_at 1000) START_SIG 1 = false
  ∧ trigger_phase (pulse_at 1000) (initial (λ _, NUL) ∅)
    = Done tt (entered (initial (λ _, NUL) ∅)).
Proof.
  split_and!; [reflexivity..|].
  apply (trigger_entry_excludes_exit (pulse_at 1000) (initial (λ _, NUL) ∅));
    reflexivity.
Defined.

(** ** Entries and rising edges *)

(** C6: over any sequence of passes of [loop], the passes on which the
    flag goes from false to true are as many as the rising edges of the
    trigger levels read (the level before the first pass being that of the
    flag, low at power on), and [memptr] is 0 after the trigger test of each
    of them. *)
Theorem entries_match_rising_edges st es st' :
  run (Running st) es = Running st' →
  entry_cursors (Running st) es
  = replicate (rising_edges (record_daq_data st) (trigger_levels es)) 0.
Proof.
  revert st. induction es as [|e es IH]; intros st Hrun; [done|].
  cbn [entry_cursors trigger_levels fmap list_fmap rising_edges].
  change (run (Running st) (e :: es)) with (run (step (Running st) e) es) in Hrun.
  destruct (step (Running st) e) as [st1|st1|] eqn:Hstep.
  - fold (trigger_levels es). rewrite (IH st1 Hrun), replicate_add.
    cbn [step] in Hstep. rewrite loop_eq in Hstep.
    unfold entry_cursor.
    destruct (trigger_phase e st) as [[] stm|stm|] eqn:Htrig; [|done|done].
    destruct (sample_phase_done (to_ulong (clock e)) e stm)
      as (st1' & Hs & Hrec1 & _).
    rewrite Hs in Hstep. injection Hstep as ->.
    destruct (pin e START_SIG 0) eqn:Hpin.
    + destruct (record_daq_data st) eqn:Hrec.
      * rewrite trigger_phase_hold in Htrig by done. injection Htrig as <-.
        by rewrite Hrec1, Hrec.
      * rewrite trigger_phase_enter in Htrig by done. injection Htrig as <-.
        by rewrite Hrec1.
    + destruct (trigger_phase_low_state e st stm Hpin) as (Hlow & _);
        [by rewrite Htrig|].
      rewrite Hrec1, Hlow. by rewrite andb_false_r.
  - destruct (run_NoCard st1 es) as [s Hs]. congruence.
  - rewrite run_Undefined in Hrun. discriminate.
Qed.

Lemma entries_match_rising_edges_witness :
  ∃ st', run (Running (initial (λ _, NUL) ∅)) two_episodes = Running st'
         ∧ entry_cursors (Running (initial (λ _, NUL) ∅)) two_episodes = [0; 0]
         ∧ rising_edges false (trigger_levels two_episodes) = 2%nat.
Proof.
  destruct (run (Running (initial (λ _, NUL) ∅)) two_episodes)
    as [st'|st'|] eqn:Hrun; [|vm_compute in Hrun; discriminate..].
  exists st'. split; [done|].
  split; [|vm_compute; reflexivity].
  rewrite (entries_match_rising_edges _ _ _ Hrun). vm_compute. reflexivity.
Defined.

(** ** A card that does not answer *)

Lemma run_NoCard_eq st es :
  run (NoCard st) es
  = NoCard (set_serial (serial st ++ replicate (length es) no_card_report) st).
Proof.
  revert st. induction es as [|e es IH]; intros st.
  - cbn. rewrite app_nil_r. by destruct st.
  - change (run (NoCard st) (e :: es)) with (run (NoCard (no_card_turn st)) es).
    rewrite IH. unfold no_card_turn. simpl_state.
    by rewrite <- app_assoc.
Qed.

(** C5, what the code does when the card never answers and the trigger
    is high on the first pass after power on: [StoreDataSDCard], which
    holds the only call of [SD.begin], has not run, and the sample of that
    pass is formatted into the buffer.  The header of the sketch (lines 24
    to 26) places the check of the card after power on, before the wait for
    the trigger. *)
Lemma sample_without_card :
  sd_begin (card_missing (at_rest 0)) = false
  ∧ sd_begin (card_missing (cranking_at 1000)) = false
  ∧ (λ st, (memptr st, psram st <$> seqZ 0 39))
      <$> machine_state
            (run (power_on (card_missing (at_rest 0)) (λ _, NUL) ∅)
                 [card_missing (cranking_at 1000)])
    = Some (39, cstr "0000001000,00000005,0,0,0512,0512,0512" ++ [LF]).
Proof. split_and!; vm_compute; reflexivity. Qed.

(** X20: the card is checked by [StoreDataSDCard], that is on a pass
    whose reads of the trigger are low.  When [SD.begin] fails there, the
    pass ends in the loop of line 154 before its sample; every later step
    only adds the report to the console, and the buffer, the cursor, the
    time of the last sample and the card stay as they were.  A pass whose
    first read of the trigger is high does not check the card and goes on
    running. *)
Theorem card_failure_halts e st :
  (pin e START_SIG 0 = false → exit_read e st = false →
   sd_begin e = false →
   ∃ st1, step (Running st) e = NoCard st1
     ∧ ∀ es, ∃ st2, run (NoCard st1) es = NoCard st2
         ∧ psram st2 = psram st
         ∧ memptr st2 = memptr st
         ∧ char_count st2 = char_count st
         ∧ last_time_usec st2 = last_time_usec st
         ∧ sd_files st2 = sd_files st
         ∧ serial st2
           = (serial st ++ failure_console)
               ++ replicate (length es) no_card_report)
  ∧ (pin e START_SIG 0 = true → ∃ st1, step (Running st) e = Running st1).
Proof.
  split.
  - intros Hpin Hexit Hbegin. eexists. split.
    + cbn [step]. rewrite loop_eq, trigger_phase_no_card by done. reflexivity.
    + intros es. eexists. split; [apply run_NoCard_eq|]. by split_and!.
  - intros Hpin. cbn [step]. rewrite loop_eq.
    destruct (record_daq_data st) eqn:Hrec.
    + rewrite trigger_phase_hold by done.
      destruct (sample_phase_done (to_ulong (clock e)) e st) as (s & -> & _).
      by exists s.
    + rewrite trigger_phase_enter by done.
      destruct (sample_phase_done (to_ulong (clock e)) e (entered st))
        as (s & -> & _).
      by exists s.
Qed.

Lemma card_failure_halts_witness :
  pin (card_missing (at_rest 0)) START_SIG 0 = false
  ∧ sd_begin (card_missing (at_rest 0)) = false
  ∧ ∃ st1 st2,
      step (Running (initial (λ _, NUL) ∅)) (card_missing (at_rest 0))
        = NoCard st1
      ∧ run (NoCard st1) [cranking_at 400; cranking_at 800] = NoCard st2
      ∧ memptr st2 = 0
      ∧ serial st2 = failure_console ++ [no_card_report; no_card_report].
Proof.
  split; [reflexivity|]. split; [reflexivity|].
  destruct (proj1 (card_failure_halts (card_missing (at_rest 0))
                     (initial (λ _, NUL) ∅)) eq_refl eq_refl eq_refl)
    as (st1 & Hstep & Hrun).
  destruct (Hrun [cranking_at 400; cranking_at 800])
    as (st2 & Hrun2 & _ & Hmem & _ & _ & _ & Hser).
  exists st1, st2. split_and!; done.
Defined.

(** ** Passes at rest *)

(** C1, what the code does on a pass with [record_daq_data] false and the
    trigger low at both reads: the second branch of the trigger test does
    not look at the flag, so [StoreDataSDCard] runs and a new file appears
    on the card on every such pass, with no episode before it. *)
Theorem idle_low_pass_stores_file e st :
  record_daq_data st = false →
  pin e START_SIG 0 = false → pin e START_SIG 1 = false →
  sd_begin e = true → Z.of_nat (size (sd_files st)) < INT_MAX →
  ∃ m st', step (Running st) e = Running st'
    ∧ record_daq_data st' = false
    ∧ sd_files st !! log_name m = None
    ∧ sd_files st' = <[log_name m := (header ++ [CR; LF]) ++ buffer_dump st]>
                       (sd_files st)
    ∧ serial st' = serial st ++ store_console (log_name m)
                     ++ [cstr "Data Aquired!" ++ [LF]].
Proof.
  intros Hrec Hpin Hpin1 Hbegin Hsize.
  assert (exit_read e st = false) as Hexit
    by (unfold exit_read; by rewrite Hrec).
  destruct (trigger_phase_drain e st Hpin Hexit Hbegin Hsize)
    as (m & Htrig & _ & Hfree & _).
  exists m. cbn [step]. rewrite loop_eq, Htrig.
  rewrite sample_phase_idle by done.
  eexists. split; [reflexivity|].
  split_and!; try done.
  unfold drained, stored. simpl_state. by rewrite <- app_assoc.
Qed.

Lemma idle_low_pass_stores_file_witness :
  record_daq_data (initial (λ _, NUL) ∅) = false
  ∧ pin (at_rest 100) START_SIG 0 = false
  ∧ pin (at_rest 100) START_SIG 1 = false
  ∧ sd_begin (at_rest 100) = true
  ∧ Z.of_nat (size (sd_files (initial (λ _, NUL) ∅))) < INT_MAX
  ∧ ∃ m st', step (Running (initial (λ _, NUL) ∅)) (at_rest 100) = Running st'
      ∧ sd_files (initial (λ _, NUL) ∅) !! log_name m = None
      ∧ sd_files st' !! log_name m = Some ((header ++ [CR; LF]) ++ [NUL]).
Proof.
  split_and!;
    [reflexivity|reflexivity|reflexivity|reflexivity|vm_compute; reflexivity|].
  destruct (idle_low_pass_stores_file (at_rest 100) (initial (λ _, NUL) ∅))
    as (m & st' & Hstep & _ & Hfree & Hfiles & _);
    [reflexivity|reflexivity|reflexivity|reflexivity|vm_compute; reflexivity|].
  exists m, st'. split_and!; try done.
  rewrite Hfiles, lookup_insert_eq. reflexivity.
Defined.

(** Two passes at rest after power on leave two files on an empty card. *)
Example idle_passes_fill_card :
  sd_files <$> machine_state
     (run (power_on (at_rest 0) (λ _, NUL) ∅) [at_rest 100; at_rest 200])
  = Some {[ cstr "LOG_0000.txt" := (header ++ [CR; LF]) ++ [NUL];
            cstr "LOG_0001.txt" := (header ++ [CR; LF]) ++ [NUL] ]}.
Proof. vm_compute. reflexivity. Qed.

(** ** What the file holds *)

Lemma buffer_dump_snoc st :
  0 ≤ memptr st →
  buffer_dump st = (psram st <$> seqZ 0 (memptr st)) ++ [psram st (memptr st)].
Proof.
  intros Hm. unfold buffer_dump.
  replace (memptr st + 1) with (Z.of_nat (S (Z.to_nat (memptr st)))) by lia.
  rewrite seqZ_S, fmap_app, Z2Nat.id by done. reflexivity.
Qed.

(** C4, what the code does on every call: the loop of line 175 runs while
    [i <= memptr], so the file receives, after the header line, the
    [memptr] characters appended and then [psram[memptr]], one character
    more than was appended. *)
Theorem drain_writes_cursor_plus_one e st :
  sd_begin e = true → Z.of_nat (size (sd_files st)) < INT_MAX →
  0 ≤ memptr st →
  ∃ m st', StoreDataSDCard e st = Done 0 st'
    ∧ sd_files st' !! log_name m
      = Some ((header ++ [CR; LF])
                ++ (psram st <$> seqZ 0 (memptr st)) ++ [psram st (memptr st)])
    ∧ Z.of_nat (length ((psram st <$> seqZ 0 (memptr st))
                          ++ [psram st (memptr st)]))
      = memptr st + 1.
Proof.
  intros Hbegin Hsize Hm.
  destruct (StoreDataSDCard_done e st Hbegin Hsize) as (m & Hrun & _).
  exists m, (stored (log_name m) st). split_and!; [done| |].
  - unfold stored. simpl_state. by rewrite lookup_insert_eq, buffer_dump_snoc.
  - rewrite length_app, length_fmap, length_seqZ. simpl. lia.
Qed.

Lemma drain_writes_cursor_plus_one_witness :
  ∃ st m st',
    run (power_on (at_rest 0) (λ _, "x"%char) ∅) [cranking_at 1000] = Running st
    ∧ memptr st = 39
    ∧ StoreDataSDCard (at_rest 1400) st = Done 0 st'
    ∧ sd_files st' !! log_name m
      = Some ((header ++ [CR; LF])
                ++ (cstr "0000001000,00000005,0,0,0512,0512,0512" ++ [LF])
                ++ [NUL]).
Proof.
  destruct (run (power_on (at_rest 0) (λ _, "x"%char) ∅) [cranking_at 1000])
    as [st|st|] eqn:Hrun; [|vm_compute in Hrun; discriminate..].
  assert (memptr st = 39) as Hm by (by vm_compute in Hrun; injection Hrun as <-).
  assert (sd_files st = ∅) as Hf by (by vm_compute in Hrun; injection Hrun as <-).
  assert (psram st <$> seqZ 0 40
          = (cstr "0000001000,00000005,0,0,0512,0512,0512" ++ [LF]) ++ [NUL])
    as Hp by (by vm_compute in Hrun; injection Hrun as <-).
  destruct (drain_writes_cursor_plus_one (at_rest 1400) st)
    as (m & st' & Hstore & Hfile & _);
    [reflexivity|rewrite Hf; vm_compute; reflexivity|lia|].
  exists st, m, st'. split_and!; try done.
  rewrite Hfile. rewrite <- buffer_dump_snoc by lia. unfold buffer_dump.
  rewrite Hm. change (39 + 1) with 40. by rewrite Hp.
Defined.

(** The card after an episode of one sample: the file ends with the NUL
    that [sprintf] stored after the line. *)
Example episode_file_ends_with_NUL :
  (λ st, map_to_list (sd_files st)) <$> machine_state
     (run (power_on (at_rest 0) (λ _, "x"%char) ∅)
          [cranking_at 1000; at_rest 1400])
  = Some [(cstr "LOG_0000.txt",
           (header ++ [CR; LF])
             ++ (cstr "0000001000,00000005,0,0,0512,0512,0512" ++ [LF])
             ++ [NUL])].
Proof. vm_compute. reflexivity. Qed.

(** ** The cursor and the end of the arena *)

Lemma length_format_sample t c d p a b s :
  0 ≤ t < 10 ^ 10 → 0 ≤ c < 10 ^ 8 → 0 ≤ d < 10 → 0 ≤ p < 10 →
  0 ≤ a < 10 ^ 4 → 0 ≤ b < 10 ^ 4 → 0 ≤ s < 10 ^ 4 →
  length (format_sample t c d p a b s) = 39%nat.
Proof.
  intros. unfold format_sample.
  rewrite !length_app, !length_fmt_dec by (done || lia). reflexivity.
Qed.

Lemma poke_below mem off s i : i < off → poke mem off s i = mem i.
Proof.
  revert mem off. induction s as [|c s IH]; intros mem off Hi; [done|].
  cbn [poke]. rewrite IH by lia.
  destruct (Z.eqb_spec i off); [lia|done].
Qed.

Lemma poke_lookup mem off (s : cstring) i c :
  s !! i = Some c → poke mem off s (off + Z.of_nat i) = c.
Proof.
  revert mem off i. induction s as [|x s IH]; intros mem off i Hi; [done|].
  cbn [poke]. destruct i as [|i].
  - injection Hi as ->. rewrite poke_below by lia.
    by rewrite Z.add_0_r, Z.eqb_refl.
  - replace (off + Z.of_nat (S i)) with (off + 1 + Z.of_nat i) by lia.
    by apply IH.
Qed.

Lemma crank_step k st :
  record_daq_data st = bool_decide (0 < k)%nat →
  (k = 0%nat → memptr st = 0) →
  last_time_usec st = 400 + 400 * Z.of_nat k →
  Z.of_nat k < 10000000 →
  step (Running st) (cranking k)
  = Running (appended (crank_line k) (800 + 400 * Z.of_nat k)
               (set_record_daq_data true st)).
Proof.
  intros Hrec Hmem Hlast Hk. cbn [step]. rewrite loop_eq.
  assert (to_ulong (clock (cranking k)) = 800 + 400 * Z.of_nat k) as Hclock.
  { apply Z.mod_small. cbn. unfold ULONG_MOD. lia. }
  rewrite Hclock.
  assert (∀ s, record_daq_data s = true →
               last_time_usec s = 400 + 400 * Z.of_nat k →
               sample_phase (800 + 400 * Z.of_nat k) (cranking k) s
               = Done tt (appended (crank_line k) (800 + 400 * Z.of_nat k) s))
    as Hsample.
  { intros s Hs Hl. rewrite (sample_phase_due _ _ _ 5); [done|done|].
    rewrite Hs, Hl. cbn [andb]. unfold is_due, to_ulong, SAMPLE_PERIOD_USEC.
    rewrite Z.mod_small by (unfold ULONG_MOD; lia). apply Z.leb_le. lia. }
  destruct k as [|k].
  - rewrite trigger_phase_enter by done. cbn [land].
    rewrite Hsample by done. cbn [land]. f_equal.
    unfold appended, entered. simpl_state. by rewrite Hmem.
  - assert (record_daq_data st = true) as Hrec'
      by (rewrite Hrec; apply bool_decide_eq_true_2; lia).
    rewrite trigger_phase_hold by done. cbn [land].
    rewrite Hsample by done. cbn [land].
    replace (set_record_daq_data true st) with st; [done|].
    rewrite <- Hrec'. symmetry. apply set_record_daq_data_same.
Qed.

Lemma length_crank_line k :
  Z.of_nat k < 10000000 → length (crank_line k) = 39%nat.
Proof. intros Hk. apply length_format_sample; lia. Qed.

(** An episode sampled on every pass from power on: while the lines fit,
    the cursor advances by 39 per pass. *)
Lemma crank_run n mem card :
  39 * Z.of_nat n ≤ EXTERNAL_MEM_SIZE + 1 →
  ∃ st, run (power_on (at_rest 0) mem card) (cranking <$> seq 0 n) = Running st
        ∧ memptr st = 39 * Z.of_nat n
        ∧ record_daq_data st = bool_decide (0 < n)%nat
        ∧ last_time_usec st = 400 + 400 * Z.of_nat n.
Proof.
  unfold EXTERNAL_MEM_SIZE. induction n as [|n IH]; intros Hn.
  - eexists. split; [reflexivity|]. by split_and!.
  - destruct IH as (st & Hrun & Hmem & Hrec & Hlast); [lia|].
    rewrite seq_S, fmap_app. unfold run in *. rewrite foldl_app, Hrun.
    cbn [foldl fmap list_fmap Nat.add].
    rewrite crank_step by (done || lia).
    eexists. split; [reflexivity|].
    unfold appended. simpl_state. rewrite length_crank_line by lia.
    rewrite Hmem. split_and!.
    + destruct (Z.gtb_spec (39 * Z.of_nat n + Z.of_nat 39 - 1) EXTERNAL_MEM_SIZE)
        as [Hgt|Hle]; [unfold EXTERNAL_MEM_SIZE in Hgt|]; lia.
    + done.
    + lia.
Qed.

(** C2, an episode that reaches the end of the arena: after 215092
    samples of 39 characters the cursor is 8388588, within the 8388608
    characters of [psram].  The next sample is formatted there without any
    test: its newline lands at offset 8388626 and its NUL at 8388627, both
    past the end of the array, and only then is the cursor set back to 0. *)
Theorem sample_overruns_arena mem card :
  ∃ st st',
    run (power_on (at_rest 0) mem card)
        (cranking <$> seq 0 (Z.to_nat 215092)) = Running st
    ∧ memptr st = 8388588
    ∧ memptr st ≤ EXTERNAL_MEM_SIZE
    ∧ step (Running st) (cranking (Z.to_nat 215092)) = Running st'
    ∧ EXTERNAL_MEM_SIZE ≤ 8388626
    ∧ psram st' 8388626 = LF
    ∧ psram st' 8388627 = NUL
    ∧ memptr st' = 0.
Proof.
  destruct (crank_run (Z.to_nat 215092) mem card)
    as (st & Hrun & Hmem & Hrec & Hlast); [unfold EXTERNAL_MEM_SIZE; lia|].
  exists st. eexists. split; [exact Hrun|].
  split; [lia|]. split; [unfold EXTERNAL_MEM_SIZE; lia|].
  split; [apply crank_step; [exact Hrec|lia|exact Hlast|lia]|].
  split; [unfold EXTERNAL_MEM_SIZE; lia|].
  unfold appended. simpl_state.
  rewrite length_crank_line by lia. rewrite Hmem.
  replace (39 * Z.of_nat (Z.to_nat 215092)) with 8388588 by lia.
  split_and!.
  - apply (poke_lookup _ 8388588 _ 38). by vm_compute.
  - apply (poke_lookup _ 8388588 _ 39). by vm_compute.
  - reflexivity.
Qed.

(** The cursor never passes the end of the arena by more than one: the
    test of line 228 lets [EXTERNAL_MEM_SIZE + 1] stand. *)
Lemma cursor_within_one_past e st st' :
  0 ≤ memptr st ≤ EXTERNAL_MEM_SIZE + 1 →
  loop e st = Done tt st' →
  0 ≤ memptr st' ≤ EXTERNAL_MEM_SIZE + 1.
Proof.
  intros Hm. rewrite loop_eq.
  destruct (trigger_phase e st) as [[] stm|stm|] eqn:Htrig; [|done|done].
  assert (0 ≤ memptr stm ≤ EXTERNAL_MEM_SIZE + 1) as Hstm.
  { destruct (pin e START_SIG 0) eqn:Hpin.
    - destruct (record_daq_data st) eqn:Hrec.
      + rewrite trigger_phase_hold in Htrig by done. by injection Htrig as <-.
      + rewrite trigger_phase_enter in Htrig by done. injection Htrig as <-.
        cbn. unfold EXTERNAL_MEM_SIZE. lia.
    - destruct (trigger_phase_low_state e st stm Hpin) as (_ & _ & ->);
        [by rewrite Htrig|done]. }
  destruct (record_daq_data stm && is_due (to_ulong (clock e)) (last_time_usec stm))
    eqn:Hc.
  - destruct (read_S35770_Counter_pure e) as [c Hread].
    rewrite (sample_phase_due _ _ _ c) by done. intros [= <-].
    unfold appended. simpl_state.
    match goal with |- context [?a >? ?b] => destruct (Z.gtb_spec a b) end;
      [unfold EXTERNAL_MEM_SIZE|]; lia.
  - rewrite sample_phase_idle by done. by intros [= <-].
Qed.

(** * Further properties of the sketch *)

(** ** The counter read *)

Lemma lor_shiftl_low hi lo n :
  0 ≤ n → 0 ≤ lo < 2 ^ n → Z.lor (Z.shiftl hi n) lo = hi * 2 ^ n + lo.
Proof.
  intros Hn Hlo.
  assert (Z.land (Z.shiftl hi n) lo = 0) as Hland.
  { apply Z.bits_inj'. intros i Hi. rewrite Z.land_spec, Z.bits_0.
    destruct (Z.lt_ge_cases i n) as [Hlt|Hge].
    - by rewrite Z.shiftl_spec_low.
    - destruct (decide (lo = 0)) as [->|Hne].
      + by rewrite Z.bits_0, andb_false_r.
      + rewrite (Z.bits_above_log2 lo i), andb_false_r; [done|lia|].
        apply Z.lt_le_trans with n; [|done].
        apply Z.log2_lt_pow2; lia. }
  rewrite <- Z.lxor_lor, <- Z.add_nocarry_lxor by done.
  by rewrite Z.shiftl_mul_pow2.
Qed.

Lemma to_ulong_small z : 0 ≤ z < ULONG_MOD → to_ulong z = z.
Proof. apply Z.mod_small. Qed.

Lemma to_ulong_range z : 0 ≤ to_ulong z < ULONG_MOD.
Proof. apply Z.mod_pos_bound. reflexivity. Qed.

Lemma lor_below_ulong a b :
  0 ≤ a < ULONG_MOD → 0 ≤ b < ULONG_MOD → 0 ≤ Z.lor a b < ULONG_MOD.
Proof.
  intros Ha Hb. split; [apply Z.lor_nonneg; lia|].
  destruct (decide (Z.lor a b = 0)) as [->|Hne]; [done|].
  assert (0 < Z.lor a b) by (pose proof (proj2 (Z.lor_nonneg a b)); lia).
  apply Z.log2_lt_pow2; [done|].
  rewrite Z.log2_lor by lia.
  destruct (decide (a = 0)) as [->|];
    destruct (decide (b = 0)) as [->|]; cbn [Z.log2]; try lia.
  - assert (Z.log2 b < 32) by (apply Z.log2_lt_pow2; unfold ULONG_MOD in *; lia).
    lia.
  - assert (Z.log2 a < 32) by (apply Z.log2_lt_pow2; unfold ULONG_MOD in *; lia).
    lia.
  - assert (Z.log2 a < 32) by (apply Z.log2_lt_pow2; unfold ULONG_MOD in *; lia).
    assert (Z.log2 b < 32) by (apply Z.log2_lt_pow2; unfold ULONG_MOD in *; lia).
    lia.
Qed.

Lemma read_counter_three_bytes e st b0 b1 b2 rest :
  wire_reply e = b0 :: b1 :: b2 :: rest →
  0 ≤ b0 < 256 → 0 ≤ b1 < 256 → 0 ≤ b2 < 256 →
  read_S35770_Counter e st = Done (b0 * 65536 + b1 * 256 + b2) st.
Proof.
  intros Hrx H0 H1 H2.
  unfold read_S35770_Counter, ask. unfold_monad. rewrite Hrx. cbn [take Wire_read].
  f_equal.
  rewrite (to_ulong_small (Z.shiftl b0 16)), (to_ulong_small (Z.shiftl b1 8)),
    (to_ulong_small b2)
    by (rewrite ?Z.shiftl_mul_pow2 by lia; unfold ULONG_MOD; lia).
  replace (Z.shiftl b0 16) with (Z.shiftl (Z.shiftl b0 8) 8)
    by (rewrite Z.shiftl_shiftl by lia; reflexivity).
  rewrite <- Z.shiftl_lor.
  rewrite (lor_shiftl_low b0 b1 8) by lia.
  rewrite lor_shiftl_low by lia. lia.
Qed.

(** X1: when the chip delivers three bytes (further bytes are not
    requested), [read_S35770_Counter] returns them composed big-endian, a
    value below [2^24], and leaves the state alone. *)
Theorem read_S35770_Counter_full e st b0 b1 b2 rest :
  wire_reply e = b0 :: b1 :: b2 :: rest →
  0 ≤ b0 < 256 → 0 ≤ b1 < 256 → 0 ≤ b2 < 256 →
  read_S35770_Counter e st = Done (b0 * 65536 + b1 * 256 + b2) st
  ∧ 0 ≤ b0 * 65536 + b1 * 256 + b2 < 2 ^ 24.
Proof.
  intros Hrx H0 H1 H2. split; [by apply (read_counter_three_bytes e st b0 b1 b2 rest)|lia].
Qed.

Lemma read_S35770_Counter_full_witness :
  read_S35770_Counter (cranking_at 1000) (initial (λ _, NUL) ∅)
  = Done 5 (initial (λ _, NUL) ∅).
Proof.
  apply (read_S35770_Counter_full (cranking_at 1000) _ 0 0 5 []);
    [reflexivity|lia..].
Defined.

(** X2: when fewer than three bytes arrive, the last [Wire.read()] is
    [-1], which the assignment turns into [2^32 - 1]; or-ed into the count
    it hides whatever was received: the function returns 4294967295. *)
Theorem read_S35770_Counter_short e st :
  (length (wire_reply e) < 3)%nat →
  read_S35770_Counter e st = Done 4294967295 st.
Proof.
  intros Hlen. unfold read_S35770_Counter, ask. unfold_monad.
  assert (∀ x, 0 ≤ x < ULONG_MOD → Z.lor x (to_ulong (-1)) = 4294967295)
    as Hones.
  { intros x Hx. change (to_ulong (-1)) with (Z.ones 32).
    destruct (decide (x = 0)) as [->|Hne]; [done|].
    rewrite Z.lor_ones_low; [done|lia|].
    apply Z.log2_lt_pow2; unfold ULONG_MOD in *; lia. }
  destruct (wire_reply e) as [|b0 [|b1 [|b2 rest]]]; cbn in Hlen; [| | |lia];
    cbn [take Wire_read]; f_equal; apply Hones;
    apply lor_below_ulong; apply to_ulong_range.
Qed.

Lemma read_S35770_Counter_short_witness :
  read_S35770_Counter (mkInputs 0 (λ _ _, false) (λ _, 0) [18; 52] true)
                      (initial (λ _, NUL) ∅)
  = Done 4294967295 (initial (λ _, NUL) ∅).
Proof. apply read_S35770_Counter_short. cbn. lia. Defined.

(** ** Decimal texts read back *)

Lemma fmt_dec_digits p v :
  (p ≤ 10)%nat → 0 ≤ v < ULONG_MOD →
  digits_value (fmt_dec p v) = v
  ∧ (p ≤ length (fmt_dec p v) ≤ 10)%nat
  ∧ Forall (λ c, is_digit c = true) (fmt_dec p v).
Proof.
  intros Hp Hv.
  destruct (fmt_dec_width_bounds p v) as (k & -> & Hk & Hlt);
    [done|unfold ULONG_MOD in Hv; lia|].
  rewrite length_fixed_digits, digits_value_fixed_digits by lia.
  split_and!; [apply Z.mod_small; lia|lia|lia|apply fixed_digits_all_digits].
Qed.

(** X3: a 32-bit value printed with a precision of at most ten digits
    takes between the precision and ten characters, all of them digits, and
    reads back as the value. *)
Theorem fmt_dec_round_trip p v :
  (p ≤ 10)%nat → 0 ≤ v < ULONG_MOD →
  digits_value (fmt_dec p v) = v
  ∧ (p ≤ length (fmt_dec p v) ≤ 10)%nat
  ∧ Forall (λ c, is_digit c = true) (fmt_dec p v).
Proof. apply fmt_dec_digits. Qed.

Lemma fmt_dec_round_trip_witness :
  digits_value (fmt_dec 4 123456) = 123456
  ∧ (4 ≤ length (fmt_dec 4 123456) ≤ 10)%nat.
Proof.
  destruct (fmt_dec_round_trip 4 123456) as (H1 & H2 & _);
    [lia|unfold ULONG_MOD; lia|].
  by split.
Defined.

Lemma parse_fields_digits (d rest : cstring) acc :
  Forall (λ c, is_digit c = true) d →
  parse_fields (d ++ rest) acc
  = parse_fields rest
      (foldl (λ a c, a * 10 + (Z.of_nat (nat_of_ascii c) - 48)) acc d).
Proof.
  intros Hd. revert acc. induction Hd as [|c d Hc _ IH]; intros acc; [done|].
  cbn [app parse_fields foldl]. by rewrite Hc, IH.
Qed.

Lemma parse_fields_field p v sep rest :
  (p ≤ 10)%nat → 0 ≤ v < ULONG_MOD → is_digit sep = false →
  parse_fields (fmt_dec p v ++ sep :: rest) 0 = v :: parse_fields rest 0.
Proof.
  intros Hp Hv Hsep.
  destruct (fmt_dec_digits p v Hp Hv) as (Hval & _ & Hdig).
  rewrite parse_fields_digits by done. cbn [parse_fields]. rewrite Hsep.
  unfold digits_value in Hval. by rewrite Hval.
Qed.

Lemma format_sample_parses t c d p a b s :
  0 ≤ t < ULONG_MOD → 0 ≤ c < ULONG_MOD → 0 ≤ d < ULONG_MOD →
  0 ≤ p < ULONG_MOD → 0 ≤ a < ULONG_MOD → 0 ≤ b < ULONG_MOD →
  0 ≤ s < ULONG_MOD →
  parse_fields (format_sample t c d p a b s) 0 = [t; c; d; p; a; b; s].
Proof.
  intros. unfold format_sample. change (cstr ",") with [","%char].
  cbn [app].
  rewrite !parse_fields_field by (done || lia). reflexivity.
Qed.

(** X4: the line of a sample reads back as its seven values, whatever
    32-bit values they are: the fields are separated by commas and ended by
    the newline, and no digit is lost or shared between fields. *)
Theorem format_sample_round_trip t c d p a b s :
  0 ≤ t < ULONG_MOD → 0 ≤ c < ULONG_MOD → 0 ≤ d < ULONG_MOD →
  0 ≤ p < ULONG_MOD → 0 ≤ a < ULONG_MOD → 0 ≤ b < ULONG_MOD →
  0 ≤ s < ULONG_MOD →
  parse_fields (format_sample t c d p a b s) 0 = [t; c; d; p; a; b; s].
Proof. apply format_sample_parses. Qed.

Lemma format_sample_round_trip_witness :
  parse_fields (format_sample 1234567890 16777215 1 0 1023 0 512) 0
  = [1234567890; 16777215; 1; 0; 1023; 0; 512].
Proof. apply format_sample_round_trip; unfold ULONG_MOD; lia. Defined.

(** ** The length of a line *)

(** X5: with inputs in their nominal ranges a due sample is a line of
    exactly 39 characters (the count of the comment on line 221):
    [char_count] is 39, the time of the last sample is the time of this
    pass, and the cursor advances by 39 unless the test of line 228 resets
    it. *)
Theorem nominal_sample_advances_39 t e st :
  nominal e → 0 ≤ t < ULONG_MOD →
  record_daq_data st && is_due t (last_time_usec st) = true →
  ∃ st', sample_phase t e st = Done tt st'
    ∧ char_count st' = 39
    ∧ last_time_usec st' = t
    ∧ memptr st' = (if memptr st + 39 - 1 >? EXTERNAL_MEM_SIZE
                    then 0 else memptr st + 39).
Proof.
  intros ((b0 & b1 & b2 & rest & Hrx & H0 & H1 & H2) & Ha & Hb & Hs) Ht Hdue.
  eexists. split.
  - apply (sample_phase_due t e st (b0 * 65536 + b1 * 256 + b2)); [|done].
    intros st'. by apply (read_counter_three_bytes e st' b0 b1 b2 rest).
  - unfold appended. simpl_state.
    rewrite length_format_sample; [done|unfold ULONG_MOD in Ht; lia|lia|..].
    + destruct (pin e FLYWHEEL_DIR_CHANNEL 0); cbn; lia.
    + destruct (pin e STARTER_PWR_K15_CHANNEL 0); cbn; lia.
    + rewrite to_ulong_small by (unfold ULONG_MOD; lia). lia.
    + rewrite to_ulong_small by (unfold ULONG_MOD; lia). lia.
    + rewrite to_ulong_small by (unfold ULONG_MOD; lia). lia.
Qed.

Lemma nominal_sample_advances_39_witness :
  ∃ st', sample_phase 1000 (cranking_at 1000)
           (entered (set_last_time_usec 400 (initial (λ _, NUL) ∅)))
         = Done tt st'
    ∧ char_count st' = 39 ∧ last_time_usec st' = 1000 ∧ memptr st' = 39.
Proof.
  destruct (nominal_sample_advances_39 1000 (cranking_at 1000)
              (entered (set_last_time_usec 400 (initial (λ _, NUL) ∅))))
    as (st' & Hrun & Hcc & Hlast & Hmem).
  - split; [exists 0, 0, 5, []; split; [reflexivity|lia]|cbn; lia].
  - unfold ULONG_MOD; lia.
  - reflexivity.
  - exists st'. by split_and!.
Defined.

(** ** File names and the 16-character buffer *)

Lemma ndigits_go_large fuel v p :
  10 ^ Z.of_nat p ≤ v → (p ≤ fuel)%nat → (p < ndigits_go fuel v)%nat.
Proof.
  revert v p. induction fuel as [|fuel IH]; intros v p Hv Hp.
  - assert (p = 0%nat) as -> by lia. simpl. lia.
  - cbn [ndigits_go]. destruct (Z.ltb_spec v 10) as [Hlt|Hge].
    + destruct p as [|p]; [lia|].
      rewrite Nat2Z.inj_succ, Z.pow_succ_r in Hv by lia.
      assert (0 < 10 ^ Z.of_nat p) by (apply Z.pow_pos_nonneg; lia). lia.
    + destruct p as [|p]; [lia|].
      apply -> Nat.succ_lt_mono. apply IH; [|lia].
      rewrite Nat2Z.inj_succ, Z.pow_succ_r in Hv by lia.
      apply Z.div_le_lower_bound; lia.
Qed.

(** X6: the name keeps the whole sequence number even when [snprintf]
    cuts it to 15 characters: over the range of [int] the number reads back
    from the name, so different numbers give different names. *)
Theorem log_name_round_trip n m :
  0 ≤ n ≤ INT_MAX → 0 ≤ m ≤ INT_MAX →
  name_number (log_name n) = n ∧ (log_name m = log_name n → m = n).
Proof.
  intros Hn Hm. split; [by apply name_number_log_name|by apply log_name_inj].
Qed.

Lemma log_name_round_trip_witness :
  name_number (log_name 12345678) = 12345678
  ∧ (log_name 2147483647 = log_name 12345678 → 2147483647 = 12345678).
Proof. apply log_name_round_trip; unfold INT_MAX; lia. Defined.

(** X7: below ten million the name is complete, ["LOG_"], the digits and
    [".txt"]; from ten million on the 16-character buffer cuts it: the name
    has 15 characters and has lost the end of its extension. *)
Theorem log_name_truncation n :
  0 ≤ n ≤ INT_MAX →
  (n < 10000000 →
   log_name n = cstr "LOG_" ++ fmt_dec 4 n ++ cstr ".txt")
  ∧ (10000000 ≤ n →
     length (log_name n) = 15%nat
     ∧ log_name n ≠ cstr "LOG_" ++ fmt_dec 4 n ++ cstr ".txt").
Proof.
  intros Hn. unfold INT_MAX in Hn.
  destruct (fmt_dec_width_bounds 4 n) as (k & Hfmt & Hk & Hlt); [lia|lia|].
  assert (length (fmt_dec 4 n) = Nat.max 4 (ndigits n)) as Hlen
    by apply length_fixed_digits.
  split.
  - intros Hsmall. unfold log_name. apply take_ge.
    rewrite !length_app, Hlen. cbn [length cstr list_ascii_of_string].
    pose proof (ndigits_go_small 9 n 7) as Hnd. unfold ndigits.
    assert (ndigits_go 9 n ≤ 7)%nat by (apply Hnd; lia). lia.
  - intros Hbig.
    assert (7 < ndigits n)%nat as Hnd by (apply ndigits_go_large; lia).
    assert (length (log_name n) = 15%nat) as H15.
    { unfold log_name. rewrite length_take, !length_app, Hlen.
      cbn [length cstr list_ascii_of_string]. lia. }
    split; [done|]. intros Heq. rewrite Heq in H15.
    rewrite !length_app, Hlen in H15.
    cbn [length cstr list_ascii_of_string] in H15. lia.
Qed.

Lemma log_name_truncation_witness :
  log_name 9999999 = cstr "LOG_9999999.txt"
  ∧ length (log_name 10000000) = 15%nat.
Proof.
  destruct (log_name_truncation 9999999) as [Hs _]; [unfold INT_MAX; lia|].
  destruct (log_name_truncation 10000000) as [_ Hb]; [unfold INT_MAX; lia|].
  split; [rewrite Hs by lia; vm_compute; reflexivity|apply Hb; lia].
Defined.

(** ** The card across calls of [StoreDataSDCard] *)

(** X8: a call that returns has returned 0 and added exactly one file;
    every file that was on the card is still there with the same contents.
    A call that ends in the loop of line 154 has not touched the card. *)
Theorem StoreDataSDCard_keeps_files e st st' :
  (∀ r, StoreDataSDCard e st = Done r st' →
        r = 0 ∧ sd_files st ⊆ sd_files st'
        ∧ size (sd_files st') = S (size (sd_files st)))
  ∧ (StoreDataSDCard e st = Hung st' → sd_files st' = sd_files st).
Proof.
  destruct (sd_begin e) eqn:Hbegin.
  - destruct (StoreDataSDCard_cases e st Hbegin) as [->|(f & -> & Hfree)];
      [done|].
    split; [|done]. intros r [= <- <-]. unfold stored. simpl_state.
    split_and!; [done|by apply insert_subseteq|by apply map_size_insert_None].
  - rewrite StoreDataSDCard_hung by done. split; [done|]. by intros [= <-].
Qed.

Lemma StoreDataSDCard_keeps_files_witness :
  ∃ st', StoreDataSDCard (at_rest 0) (initial (λ _, NUL) three_logs)
         = Done 0 st'
    ∧ three_logs ⊆ sd_files st' ∧ size (sd_files st') = 4%nat.
Proof.
  destruct (StoreDataSDCard_done (at_rest 0) (initial (λ _, NUL) three_logs))
    as (m & Hrun & _); [reflexivity|vm_compute; reflexivity|].
  eexists. split; [exact Hrun|].
  destruct (proj1 (StoreDataSDCard_keeps_files (at_rest 0)
                     (initial (λ _, NUL) three_logs) _) 0 Hrun)
    as (_ & Hsub & Hsize).
  split; [exact Hsub|]. rewrite Hsize. vm_compute. reflexivity.
Defined.

Lemma first_names_S n : first_names (S n) = first_names n ++ [log_name (Z.of_nat n)].
Proof. unfold first_names. by rewrite seq_S, fmap_app. Qed.

Lemma elem_of_first_names f n :
  f ∈ first_names n ↔ ∃ k, (k < n)%nat ∧ f = log_name (Z.of_nat k).
Proof.
  unfold first_names. rewrite list_elem_of_fmap. split.
  - intros (k & -> & Hk%elem_of_seq). exists k. split; [lia|done].
  - intros (k & Hk & ->). exists k. split; [done|]. apply elem_of_seq. lia.
Qed.

Lemma store_all_numbers es st n :
  dom (sd_files st) = list_to_set (first_names n) →
  size (sd_files st) = n →
  Forall (λ e, sd_begin e = true) es →
  Z.of_nat (n + length es) ≤ INT_MAX →
  ∃ st', store_all es st = Done tt st'
    ∧ dom (sd_files st') = list_to_set (first_names (n + length es))
    ∧ size (sd_files st') = (n + length es)%nat.
Proof.
  intros Hdom Hsize Hes. revert st n Hdom Hsize.
  induction Hes as [|e es He _ IH]; intros st n Hdom Hsize Hmax.
  - exists st. cbn [length]. rewrite Nat.add_0_r. by split_and!.
  - cbn [length] in Hmax.
    destruct (StoreDataSDCard_done e st He) as (m & Hrun & Hm & Hfree & Hall);
      [lia|].
    assert (m = Z.of_nat n) as ->.
    { destruct (Z.lt_trichotomy m (Z.of_nat n)) as [Hlt|[Heq|Hgt]]; [|done|].
      - exfalso. apply (proj1 (eq_None_not_Some _) Hfree). apply elem_of_dom.
        rewrite Hdom. apply elem_of_list_to_set, elem_of_first_names.
        exists (Z.to_nat m). split; [lia|]. f_equal. lia.
      - exfalso. destruct (Hall (Z.of_nat n)) as [c Hc]; [lia|].
        assert (log_name (Z.of_nat n) ∈ dom (sd_files st)) as Hin
          by (apply elem_of_dom; eauto).
        rewrite Hdom in Hin.
        apply elem_of_list_to_set, elem_of_first_names in Hin
          as (k & Hk & Heq).
        apply log_name_inj in Heq; lia. }
    cbn [store_all]. rewrite Hrun.
    destruct (IH (stored (log_name (Z.of_nat n)) st) (S n))
      as (st' & Hrun' & Hdom' & Hsize').
    + unfold stored. simpl_state. rewrite dom_insert_L, Hdom, first_names_S.
      rewrite list_to_set_app_L. cbn [list_to_set foldr].
      rewrite (right_id_L ∅ (∪)). apply (comm_L (∪)).
    + unfold stored. simpl_state. by rewrite map_size_insert_None, Hsize.
    + lia.
    + exists st'. cbn [length].
      replace (n + S (length es))%nat with (S n + length es)%nat by lia.
      by split_and!.
Qed.

(** X9: calls in a row on a card that starts empty and answers every time
    number their files in sequence: after [n] calls the card holds exactly
    the files of the numbers 0 to [n-1]. *)
Theorem stores_number_in_sequence es st :
  sd_files st = ∅ →
  Forall (λ e, sd_begin e = true) es →
  Z.of_nat (length es) ≤ INT_MAX →
  ∃ st', store_all es st = Done tt st'
    ∧ dom (sd_files st') = list_to_set (first_names (length es))
    ∧ size (sd_files st') = length es.
Proof.
  intros Hempty Hes Hmax.
  apply (store_all_numbers es st 0); [| |done|done].
  - rewrite Hempty. cbn. by rewrite dom_empty_L.
  - by rewrite Hempty, map_size_empty.
Qed.

Lemma stores_number_in_sequence_witness :
  ∃ st', store_all [at_rest 0; at_rest 10; at_rest 20] (initial (λ _, NUL) ∅)
         = Done tt st'
    ∧ dom (sd_files st')
      = {[ cstr "LOG_0000.txt"; cstr "LOG_0001.txt"; cstr "LOG_0002.txt" ]}.
Proof.
  destruct (stores_number_in_sequence [at_rest 0; at_rest 10; at_rest 20]
              (initial (λ _, NUL) ∅))
    as (st' & Hrun & Hdom & _);
    [reflexivity|by repeat constructor|cbn; unfold INT_MAX; lia|].
  exists st'. split; [exact Hrun|]. rewrite Hdom. vm_compute. reflexivity.
Defined.

(** ** What a pass of [loop] changes *)

Lemma StoreDataSDCard_globals e st st' :
  outcome_state (StoreDataSDCard e st) = Some st' →
  last_time_usec st' = last_time_usec st ∧ char_count st' = char_count st
  ∧ psram st' = psram st ∧ memptr st' = memptr st
  ∧ record_daq_data st' = record_daq_data st.
Proof.
  destruct (sd_begin e) eqn:Hbegin.
  - destruct (StoreDataSDCard_cases e st Hbegin) as [->|(f & -> & _)];
      [done|].
    intros [= <-]. by split_and!.
  - rewrite StoreDataSDCard_hung by done. intros [= <-]. by split_and!.
Qed.

Lemma bind_Undef {A B} (m : M A) (f : A → M B) e st :
  m e st = Undef → (m ≫= f) e st = Undef.
Proof. intros H. unfold mbind, M_bind. by rewrite H. Qed.

Lemma loop_low_cases e st :
  pin e START_SIG 0 = false →
  (loop e st = Undef)
  ∨ (∃ s, StoreDataSDCard e (set_record_daq_data false st) = Hung s
          ∧ loop e st = Hung s)
  ∨ (∃ r s, StoreDataSDCard e (set_record_daq_data false st) = Done r s
            ∧ loop e st
              = Done tt (set_serial (serial s ++ [cstr "Data Aquired!" ++ [LF]]) s))
  ∨ (record_daq_data st = false ∧ pin e START_SIG 1 = true
     ∧ loop e st = Done tt st).
Proof.
  intros Hpin. rewrite loop_eq.
  destruct (trigger_phase_low_cases e st Hpin)
    as [[_ ->]|(Hrec & Hpin1 & ->)].
  - destruct (StoreDataSDCard e (set_record_daq_data false st))
      as [r s|s|] eqn:Hs.
    + right. right. left. exists r, s. split; [done|].
      destruct (StoreDataSDCard_globals e (set_record_daq_data false st) s)
        as (_ & _ & _ & _ & Hrec); [by rewrite Hs|].
      rewrite (bind_Done _ _ _ _ _ _ Hs).
      unfold Serial_print, modify. rewrite sample_phase_idle; [done|].
      simpl_state. by rewrite Hrec.
    + right. left. exists s. split; [done|].
      by rewrite (bind_Hung _ _ _ _ _ Hs).
    + left. by rewrite (bind_Undef _ _ _ _ Hs).
  - right. right. right. split_and!; [done|done|].
    apply sample_phase_idle. by rewrite Hrec.
Qed.

Lemma loop_low_state e st st' :
  pin e START_SIG 0 = false →
  outcome_state (loop e st) = Some st' →
  record_daq_data st' = false
  ∧ psram st' = psram st ∧ memptr st' = memptr st
  ∧ last_time_usec st' = last_time_usec st
  ∧ char_count st' = char_count st.
Proof.
  intros Hpin.
  destruct (loop_low_cases e st Hpin)
    as [->|[(s & Hs & ->)|[(r & s & Hs & ->)|(Hrec & _ & ->)]]];
    [done| | |by intros [= <-]];
    intros [= <-];
    destruct (StoreDataSDCard_globals e (set_record_daq_data false st) s)
      as (? & ? & ? & ? & ?); try (by rewrite Hs); by split_and!.
Qed.

(** X10: a pass whose first read of the trigger is low takes no sample,
    however it ends: the flag is false afterwards and the buffer, the
    cursor, the time of the last sample and [char_count] are as before. *)
Theorem low_pass_takes_no_sample e st st' :
  pin e START_SIG 0 = false →
  outcome_state (loop e st) = Some st' →
  record_daq_data st' = false
  ∧ psram st' = psram st ∧ memptr st' = memptr st
  ∧ last_time_usec st' = last_time_usec st
  ∧ char_count st' = char_count st.
Proof. apply loop_low_state. Qed.

Lemma low_pass_takes_no_sample_witness :
  ∃ st', loop (at_rest 5000)
              (set_record_daq_data true
                 (set_memptr 39 (initial (λ _, NUL) ∅)))
         = Done tt st'
    ∧ record_daq_data st' = false ∧ memptr st' = 39
    ∧ last_time_usec st' = 0.
Proof.
  destruct (loop (at_rest 5000)
              (set_record_daq_data true (set_memptr 39 (initial (λ _, NUL) ∅))))
    as [[] st'|st'|] eqn:Hrun; [|vm_compute in Hrun; discriminate..].
  destruct (low_pass_takes_no_sample (at_rest 5000)
              (set_record_daq_data true (set_memptr 39 (initial (λ _, NUL) ∅)))
              st' eq_refl)
    as (Hrec & _ & Hmem & Hlast & _); [by rewrite Hrun|].
  exists st'. by split_and!.
Defined.

(** X11: while recording with the trigger high, a pass on which no sample
    is due changes nothing at all. *)
Theorem pass_not_due_changes_nothing e st :
  record_daq_data st = true → pin e START_SIG 0 = true →
  is_due (to_ulong (clock e)) (last_time_usec st) = false →
  loop e st = Done tt st.
Proof.
  intros Hrec Hpin Hdue. rewrite loop_eq, trigger_phase_hold by done.
  apply sample_phase_idle. by rewrite Hdue, andb_false_r.
Qed.

Lemma pass_not_due_changes_nothing_witness :
  loop (cranking_at 1100)
       (set_record_daq_data true
          (set_last_time_usec 1000 (initial (λ _, NUL) ∅)))
  = Done tt (set_record_daq_data true
               (set_last_time_usec 1000 (initial (λ _, NUL) ∅))).
Proof. apply pass_not_due_changes_nothing; reflexivity. Defined.

(** X18: after every pass that returns, the flag [record_daq_data] is the
    trigger level first read on that pass. *)
Theorem flag_follows_trigger e st st' :
  loop e st = Done tt st' → record_daq_data st' = pin e START_SIG 0.
Proof.
  intros Hrun. destruct (pin e START_SIG 0) eqn:Hpin.
  - rewrite loop_eq in Hrun. destruct (record_daq_data st) eqn:Hrec.
    + rewrite trigger_phase_hold in Hrun by done.
      destruct (sample_phase_done (to_ulong (clock e)) e st)
        as (s & Hs & Hr & _).
      rewrite Hs in Hrun. injection Hrun as <-. by rewrite Hr.
    + rewrite trigger_phase_enter in Hrun by done.
      destruct (sample_phase_done (to_ulong (clock e)) e (entered st))
        as (s & Hs & Hr & _).
      rewrite Hs in Hrun. injection Hrun as <-. by rewrite Hr.
  - by destruct (loop_low_state e st st' Hpin) as [? _];
      [rewrite Hrun|].
Qed.

Lemma flag_follows_trigger_witness :
  ∃ st', loop (cranking_at 1000) (initial (λ _, NUL) ∅) = Done tt st'
    ∧ record_daq_data st' = true.
Proof.
  destruct (loop (cranking_at 1000) (initial (λ _, NUL) ∅))
    as [[] st'|st'|] eqn:Hrun; [|vm_compute in Hrun; discriminate..].
  exists st'. split; [done|].
  by rewrite (flag_follows_trigger _ _ _ Hrun).
Defined.



(** ** The cursor over a whole run *)

Lemma step_cursor m e :
  (∀ st, machine_state m = Some st → 0 ≤ memptr st ≤ EXTERNAL_MEM_SIZE + 1) →
  ∀ st, machine_state (step m e) = Some st →
        0 ≤ memptr st ≤ EXTERNAL_MEM_SIZE + 1.
Proof.
  intros Hm st' Hst'. destruct m as [st|st|]; cbn [step] in Hst'.
  - specialize (Hm st eq_refl).
    destruct (loop e st) as [[] s|s|] eqn:Hloop; cbn in Hst'; [| |done].
    + injection Hst' as <-. by apply (cursor_within_one_past e st).
    + injection Hst' as <-. destruct (pin e START_SIG 0) eqn:Hpin.
      * exfalso. rewrite loop_eq in Hloop.
        destruct (record_daq_data st) eqn:Hrec.
        -- rewrite trigger_phase_hold in Hloop by done.
           destruct (sample_phase_done (to_ulong (clock e)) e st)
             as (x & Hx & _).
           congruence.
        -- rewrite trigger_phase_enter in Hloop by done.
           destruct (sample_phase_done (to_ulong (clock e)) e (entered st))
             as (x & Hx & _).
           congruence.
      * destruct (loop_low_state e st s Hpin) as (_ & _ & -> & _);
          [by rewrite Hloop|done].
  - injection Hst' as <-. apply (Hm st eq_refl).
  - done.
Qed.

(** X16: from power on, whatever the inputs, the memory and the card,
    the cursor stays between 0 and [EXTERNAL_MEM_SIZE + 1] in every state
    the machine reaches: the test of line 228 resets it only when it is two
    or more past the end. *)
Theorem cursor_stays_within_one_past e0 mem card es st :
  machine_state (run (power_on e0 mem card) es) = Some st →
  0 ≤ memptr st ≤ EXTERNAL_MEM_SIZE + 1.
Proof.
  revert st. induction es as [|e es IH] using rev_ind; intros st.
  - cbn. intros [= <-]. cbn. unfold EXTERNAL_MEM_SIZE. lia.
  - unfold run in *. rewrite foldl_app. cbn [foldl].
    by apply step_cursor.
Qed.

Lemma cursor_stays_within_one_past_witness :
  ∃ st, machine_state
          (run (power_on (at_rest 0) (λ _, NUL) ∅)
               [cranking_at 1000; cranking_at 1400; at_rest 1800]) = Some st
    ∧ 0 ≤ memptr st ≤ EXTERNAL_MEM_SIZE + 1.
Proof.
  destruct (machine_state
              (run (power_on (at_rest 0) (λ _, NUL) ∅)
                   [cranking_at 1000; cranking_at 1400; at_rest 1800]))
    as [st|] eqn:Hrun; [|vm_compute in Hrun; discriminate].
  exists st. split; [done|].
  by apply (cursor_stays_within_one_past (at_rest 0) (λ _, NUL) ∅
              [cranking_at 1000; cranking_at 1400; at_rest 1800]).
Defined.

(** ** Appending to the buffer *)

Lemma poke_read mem off (s : list ascii) :
  poke mem off s <$> seqZ off (Z.of_nat (length s)) = s.
Proof.
  apply list_eq. intros i. rewrite list_lookup_fmap.
  destruct (s !! i) as [c|] eqn:Hi.
  - rewrite lookup_seqZ_lt by (apply lookup_lt_Some in Hi; lia).
    cbn. f_equal. by apply poke_lookup.
  - by rewrite lookup_seqZ_ge by (apply lookup_ge_None in Hi; lia).
Qed.

Lemma poke_read_text mem off (text : cstring) :
  poke mem off (text ++ [NUL]) <$> seqZ off (Z.of_nat (length text)) = text
  ∧ poke mem off (text ++ [NUL]) (off + Z.of_nat (length text)) = NUL.
Proof.
  pose proof (poke_read mem off (text ++ [NUL])) as Hall.
  rewrite length_app in Hall. cbn [length] in Hall.
  replace (Z.of_nat (length text + 1)) with (Z.of_nat (length text) + 1)
    in Hall by lia.
  rewrite seqZ_app, fmap_app in Hall by lia. cbn in Hall.
  apply app_inj_tail in Hall as [Htext Hnul]. by split.
Qed.

Lemma poke_keeps_below mem off (s : cstring) n :
  n ≤ off → poke mem off s <$> seqZ 0 n = mem <$> seqZ 0 n.
Proof.
  intros Hn. apply list_fmap_ext. intros i x Hx.
  apply lookup_seqZ in Hx as [-> Hi]. apply poke_below. lia.
Qed.

Lemma appended_buffer line t st :
  0 ≤ memptr st →
  memptr st + Z.of_nat (length line) - 1 ≤ EXTERNAL_MEM_SIZE →
  memptr (appended line t st) = memptr st + Z.of_nat (length line)
  ∧ buffer_prefix (appended line t st) = buffer_prefix st ++ line
  ∧ psram (appended line t st) (memptr (appended line t st)) = NUL.
Proof.
  intros Hm Hfit. unfold buffer_prefix, appended. simpl_state.
  destruct (Z.gtb_spec (memptr st + Z.of_nat (length line) - 1) EXTERNAL_MEM_SIZE)
    as [Hgt|_]; [lia|].
  destruct (poke_read_text (psram st) (memptr st) line) as [Htext Hnul].
  split_and!; [done| |done].
  rewrite seqZ_app, fmap_app, Z.add_0_l by lia.
  by rewrite poke_keeps_below, Htext by lia.
Qed.

Lemma read_counter_range e st c st' :
  read_S35770_Counter e st = Done c st' → 0 ≤ c < ULONG_MOD.
Proof.
  unfold read_S35770_Counter, ask. unfold_monad.
  destruct (Wire_read (take 3 (wire_reply e))) as [b0 rx0].
  destruct (Wire_read rx0) as [b1 rx1].
  destruct (Wire_read rx1) as [b2 rx2].
  intros [= <- _]. repeat apply lor_below_ulong; apply to_ulong_range.
Qed.

Lemma b2z_range (b : bool) : 0 ≤ Z.b2z b < ULONG_MOD.
Proof. destruct b; cbn; unfold ULONG_MOD; lia. Qed.

(** A line of 32-bit values has between 39 and 77 characters. *)
Lemma length_format_sample_range t c d p a b s :
  0 ≤ t < ULONG_MOD → 0 ≤ c < ULONG_MOD → 0 ≤ d < ULONG_MOD →
  0 ≤ p < ULONG_MOD → 0 ≤ a < ULONG_MOD → 0 ≤ b < ULONG_MOD →
  0 ≤ s < ULONG_MOD →
  (39 ≤ length (format_sample t c d p a b s) ≤ 77)%nat.
Proof.
  intros Ht Hc Hd Hp Ha Hb Hs.
  unfold format_sample. rewrite !length_app.
  cbn [length cstr list_ascii_of_string].
  pose proof (λ p v Hp Hv, proj1 (proj2 (fmt_dec_digits p v Hp Hv))) as Hw.
  pose proof (Hw 10%nat t). pose proof (Hw 8%nat c). pose proof (Hw 1%nat d).
  pose proof (Hw 1%nat p). pose proof (Hw 4%nat a). pose proof (Hw 4%nat b).
  pose proof (Hw 4%nat s). lia.
Qed.

(** X12: a due sample that fits appends its line to the buffer: the
    characters below the cursor are kept, the line follows them, the cursor
    moves past the line and points at the NUL that ends it; the line reads
    back as the time of the pass, the count and the five inputs. *)
Theorem sample_appends_line t e st :
  0 ≤ t < ULONG_MOD → 0 ≤ memptr st ≤ EXTERNAL_MEM_SIZE - 77 →
  record_daq_data st && is_due t (last_time_usec st) = true →
  ∃ line count st',
    sample_phase t e st = Done tt st'
    ∧ read_S35770_Counter e st = Done count st
    ∧ parse_fields line 0
      = [t; count; Z.b2z (pin e FLYWHEEL_DIR_CHANNEL 0);
         Z.b2z (pin e STARTER_PWR_K15_CHANNEL 0);
         to_ulong (adc e STARTER_CURRENT_CHANNEL);
         to_ulong (adc e FUEL_HTR_CURRENT_CHANNEL);
         to_ulong (adc e STARTER_STRAIN_CURRENT_CHANNEL)]
    ∧ char_count st' = Z.of_nat (length line)
    ∧ memptr st' = memptr st + Z.of_nat (length line)
    ∧ buffer_prefix st' = buffer_prefix st ++ line
    ∧ psram st' (memptr st') = NUL.
Proof.
  intros Ht Hm Hdue.
  destruct (read_S35770_Counter_pure e) as [c Hread].
  pose proof (read_counter_range e st c st (Hread st)) as Hc.
  set (line := format_sample t c
                 (Z.b2z (pin e FLYWHEEL_DIR_CHANNEL 0))
                 (Z.b2z (pin e STARTER_PWR_K15_CHANNEL 0))
                 (to_ulong (adc e STARTER_CURRENT_CHANNEL))
                 (to_ulong (adc e FUEL_HTR_CURRENT_CHANNEL))
                 (to_ulong (adc e STARTER_STRAIN_CURRENT_CHANNEL))).
  assert (39 ≤ length line ≤ 77)%nat as Hlen
    by (apply length_format_sample_range;
        (done || apply b2z_range || apply to_ulong_range)).
  destruct (appended_buffer line t st) as (Hmem & Hbuf & Hnul); [lia|lia|].
  exists line, c, (appended line t st).
  split_and!; [by apply sample_phase_due|done| |done|done|done|done].
  apply format_sample_parses; (done || apply b2z_range || apply to_ulong_range).
Qed.

Lemma sample_appends_line_witness :
  ∃ line st',
    sample_phase 1000 (cranking_at 1000)
      (entered (set_last_time_usec 400 (initial (λ _, NUL) ∅)))
    = Done tt st'
    ∧ parse_fields line 0 = [1000; 5; 0; 0; 512; 512; 512]
    ∧ memptr st' = Z.of_nat (length line)
    ∧ buffer_prefix st' = line.
Proof.
  destruct (sample_appends_line 1000 (cranking_at 1000)
              (entered (set_last_time_usec 400 (initial (λ _, NUL) ∅))))
    as (line & count & st' & Hrun & Hread & Hparse & _ & Hmem & Hbuf & _).
  - unfold ULONG_MOD. lia.
  - cbn. unfold EXTERNAL_MEM_SIZE. lia.
  - reflexivity.
  - exists line, st'. vm_compute in Hread. injection Hread as <-.
    split_and!; [exact Hrun|exact Hparse|exact Hmem|exact Hbuf].
Defined.

(** ** The first sample after power on *)

(** X14: [setup] sets the time of the last sample one period ahead of the
    clock and the due test adds a period again, so a pass that enters
    recording takes a sample only when the clock is two periods or more
    past the clock of [setup] (no wrap in between); until then the buffer
    stays as it was at power on. *)
Theorem first_sample_waits_two_periods e0 e mem card :
  pin e START_SIG 0 = true →
  to_ulong (clock e0) + 2 * SAMPLE_PERIOD_USEC < ULONG_MOD →
  ∃ st', step (power_on e0 mem card) e = Running st'
    ∧ record_daq_data st' = true
    ∧ (to_ulong (clock e) < to_ulong (clock e0) + 2 * SAMPLE_PERIOD_USEC →
       memptr st' = 0 ∧ char_count st' = 0 ∧ psram st' = mem
       ∧ last_time_usec st' = to_ulong (clock e0) + SAMPLE_PERIOD_USEC)
    ∧ (to_ulong (clock e0) + 2 * SAMPLE_PERIOD_USEC ≤ to_ulong (clock e) →
       last_time_usec st' = to_ulong (clock e)
       ∧ 39 ≤ char_count st' ∧ memptr st' = char_count st').
Proof.
  intros Hpin Hwrap. unfold SAMPLE_PERIOD_USEC in *.
  pose proof (to_ulong_range (clock e0)) as H0.
  pose proof (to_ulong_range (clock e)) as Hnow.
  set (t0 := to_ulong (clock e0)) in *. set (now := to_ulong (clock e)) in *.
  assert (power_on e0 mem card
          = Running (set_last_time_usec (t0 + 400) (initial mem card))) as ->.
  { unfold power_on, setup, micros, ask, modify. unfold_monad. cbn [land].
    fold t0. unfold SAMPLE_PERIOD_USEC. by rewrite to_ulong_small by lia. }
  cbn [step]. rewrite loop_eq, trigger_phase_enter by done. fold now.
  assert (is_due now (t0 + 400) = (t0 + 800 <=? now)) as Hdue.
  { unfold is_due, SAMPLE_PERIOD_USEC.
    by rewrite to_ulong_small, <- Z.add_assoc by lia. }
  destruct (Z.leb_spec (t0 + 800) now) as [Hle|Hlt].
  - destruct (read_S35770_Counter_pure e) as [c Hread].
    pose proof (read_counter_range e _ c _ (Hread (initial mem card))) as Hc.
    rewrite (sample_phase_due _ _ _ c); [|done|cbn; by rewrite Hdue].
    eexists. split; [reflexivity|]. unfold appended, entered. simpl_state.
    match goal with
    | |- context [length ?l] =>
        assert (39 ≤ length l ≤ 77)%nat as Hlen
          by (apply length_format_sample_range;
              (done || apply b2z_range || apply to_ulong_range))
    end.
    split_and!; [done|intros; lia|]. intros _.
    match goal with
    | |- context [?a >? ?b] => destruct (Z.gtb_spec a b) as [Hgt|_]
    end; [unfold EXTERNAL_MEM_SIZE in Hgt; lia|].
    split_and!; [done|lia|lia].
  - rewrite sample_phase_idle; [|cbn; by rewrite Hdue].
    eexists. split; [reflexivity|]. cbn. split_and!; [done| |intros; lia].
    intros _. by split_and!.
Qed.

Lemma first_sample_waits_two_periods_witness :
  ∃ st', step (power_on (at_rest 0) (λ _, NUL) ∅) (cranking_at 799)
         = Running st'
    ∧ record_daq_data st' = true ∧ memptr st' = 0
    ∧ last_time_usec st' = 400.
Proof.
  destruct (first_sample_waits_two_periods (at_rest 0) (cranking_at 799)
              (λ _, NUL) ∅)
    as (st' & Hstep & Hrec & Hearly & _);
    [reflexivity|vm_compute; reflexivity|].
  destruct Hearly as (Hmem & _ & _ & Hlast); [vm_compute; reflexivity|].
  exists st'. by split_and!.
Defined.

(** ** An episode, from the first sample to the file *)





(** ** [dump_text] *)

Lemma for_each_serial l e st :
  for_each l (λ i, c ← get (λ st, psram st i); Serial_print [c]) e st
  = Done tt (set_serial (serial st ++ ((λ i, [psram st i]) <$> l)) st).
Proof.
  revert st. induction l as [|i l IH]; intros st.
  - cbn. rewrite app_nil_r. by destruct st.
  - cbn [for_each]. step. rewrite IH. unfold Serial_print, modify.
    simpl_state. cbn [fmap list_fmap]. by rewrite <- app_assoc.
Qed.

(** X17: [dump_text] prints the first [100 * char_count] characters of
    [psram], one per call and in order, whatever the cursor is, and changes
    nothing else; before the first sample, when [char_count] is 0, it
    prints nothing. *)
Theorem dump_text_prints e st :
  dump_text e st
  = Done tt (set_serial
               (serial st ++ ((λ i, [psram st i])
                                <$> seqZ 0 (char_count st * 100))) st)
  ∧ (char_count st = 0 → dump_text e st = Done tt st)
  ∧ (0 ≤ char_count st →
     ∀ st', dump_text e st = Done tt st' →
            Z.of_nat (length (serial st'))
            = Z.of_nat (length (serial st)) + 100 * char_count st).
Proof.
  assert (dump_text e st
          = Done tt (set_serial
                       (serial st ++ ((λ i, [psram st i])
                                        <$> seqZ 0 (char_count st * 100))) st))
    as Hrun.
  { unfold dump_text. step. apply for_each_serial. }
  split_and!; [done| |].
  - intros H0. rewrite Hrun, H0. cbn. rewrite app_nil_r. by destruct st.
  - intros Hcc st'. rewrite Hrun. intros [= <-]. simpl_state.
    rewrite length_app, length_fmap, length_seqZ. lia.
Qed.

Lemma dump_text_prints_witness :
  dump_text (at_rest 0) (initial (λ _, NUL) ∅) = Done tt (initial (λ _, NUL) ∅).
Proof. by apply (dump_text_prints (at_rest 0) (initial (λ _, NUL) ∅)). Defined.

(** ** The bytes a sample writes *)

Lemma poke_above mem off (s : list ascii) i :
  off + Z.of_nat (length s) ≤ i → poke mem off s i = mem i.
Proof.
  revert mem off. induction s as [|c s IH]; intros mem off Hi; [done|].
  cbn [poke]. cbn [length] in Hi. rewrite IH by lia.
  destruct (Z.eqb_spec i off); [lia|done].
Qed.

(** X19: a due sample stores its line and the NUL at the cursor and
    nowhere else: every offset below the cursor, or more than the length of
    the line past it, keeps its character.  The line has at most 77
    characters, so a sample taken with the cursor at least 78 below the end
    of the arena stays inside it. *)
Theorem sample_writes_only_its_line t e st :
  0 ≤ t < ULONG_MOD →
  record_daq_data st && is_due t (last_time_usec st) = true →
  ∃ st', sample_phase t e st = Done tt st'
    ∧ 39 ≤ char_count st' ≤ 77
    ∧ (∀ i, i < memptr st ∨ memptr st + char_count st' < i →
            psram st' i = psram st i)
    ∧ (0 ≤ memptr st ≤ EXTERNAL_MEM_SIZE - 78 →
       ∀ i, psram st' i ≠ psram st i → 0 ≤ i < EXTERNAL_MEM_SIZE).
Proof.
  intros Ht Hdue.
  destruct (read_S35770_Counter_pure e) as [c Hread].
  pose proof (read_counter_range e _ c _ (Hread st)) as Hc.
  rewrite (sample_phase_due t e st c) by done.
  eexists. split; [reflexivity|]. unfold appended. simpl_state.
  match goal with
  | |- context [length ?l] =>
      assert (39 ≤ length l ≤ 77)%nat as Hlen
        by (apply length_format_sample_range;
            (done || apply b2z_range || apply to_ulong_range));
      set (line := l) in *
  end.
  assert (∀ i, i < memptr st ∨ memptr st + Z.of_nat (length line) < i →
               poke (psram st) (memptr st) (line ++ [NUL]) i = psram st i)
    as Hframe.
  { intros i [Hlo|Hhi]; [by apply poke_below|].
    apply poke_above. rewrite length_app. cbn [length]. lia. }
  split_and!; [lia|lia|done|].
  intros Hm i Hne.
  destruct (decide (i < memptr st ∨ memptr st + Z.of_nat (length line) < i))
    as [Hout|Hin]; [by rewrite Hframe in Hne|lia].
Qed.

Lemma sample_writes_only_its_line_witness :
  ∃ st', sample_phase 1000 (cranking_at 1000)
           (entered (set_last_time_usec 400 (initial (λ _, "x"%char) ∅)))
         = Done tt st'
    ∧ psram st' 40 = "x"%char.
Proof.
  destruct (sample_writes_only_its_line 1000 (cranking_at 1000)
              (entered (set_last_time_usec 400 (initial (λ _, "x"%char) ∅))))
    as (st' & Hrun & Hcc & Hframe & _);
    [unfold ULONG_MOD; lia|reflexivity|].
  exists st'. split; [exact Hrun|].
  assert (char_count st' = 39) as Hcc39.
  { vm_compute in Hrun. injection Hrun as <-. reflexivity. }
  rewrite Hframe; [reflexivity|]. right. rewrite Hcc39. cbn. lia.
Defined.
